(** * Organization-user membership: HTTP handlers and the users table

    A shallow embedding of [pkg/api/org_users.go] (module [Api]) and of
    [public/app/features/users/UsersTable.tsx] (module [UsersTable]),
    with the properties of the membership specification stated over it.

    Conventions of the embedding.
    - Go's [int64] and [int] values are [Z]; the handlers only compare and
      copy them, so no wrap-around arises.
    - A Go method that fills its argument through a pointer
      ([GetUserByLogin(ctx, &query)]) returns the argument as the callee
      left it, next to the error ([None] is Go's [nil] error).
    - The SQL store, the access-control service and the helper packages
      ([dtos], [web], [accesscontrol], [models.RoleType]) are collaborators
      whose code is outside these two files: they are taken as interfaces
      (type classes), exactly as the handlers consume them.
    - [map] values read from a [nil] Go map behave as reads from an empty
      map, so both are the empty [gmap]. *)

From Stdlib Require Import ZArith String List Bool Lia.
From stdpp Require Import base option list gmap strings pretty.

Local Open Scope Z_scope.
Local Open Scope string_scope.
Local Open Scope list_scope.

Module Api.

(** ** Errors *)

(** Go error values.  [ErrOrgUserAlreadyAdded] and [ErrLastOrgAdmin] are
    the two sentinels of package [models] the handlers test for.
    Modelled from the spec: [ErrUserNotFound] is the store's "unknown
    login/email" report (NotFound in the error taxonomy); the handlers never
    name it.  [ErrOther] is any other error value (a database or transport
    failure), and [ErrWrap] an error wrapping another one, which [errors.Is]
    looks through. *)
Inductive error : Type :=
| ErrOrgUserAlreadyAdded
| ErrLastOrgAdmin
| ErrUserNotFound
| ErrOther (msg : string)
| ErrWrap (msg : string) (inner : error).

#[export] Instance error_eq_dec : EqDecision error.
Proof. solve_decision. Defined.

(** [errors.Is(err, target)]: [err] or an error it wraps is [target]. *)
Fixpoint errors_Is (err target : error) : bool :=
  if decide (err = target) then true
  else match err with
       | ErrWrap _ inner => errors_Is inner target
       | _ => false
       end.

(** ** Data of package [models] and [dtos] *)

(** [models.RoleType] is a Go string type. *)
Definition RoleType : Type := string.

(** [accesscontrol.Metadata], a [map[string]bool] from action to allowed. *)
Definition Metadata : Type := gmap string bool.

Module User.
(** [models.User]; the handlers read its [Id] only. *)
Record t : Type := { Id : Z; Login : string; Email : string }.
End User.

Module OrgUserDTO.
(** Modelled from the spec: the declaration of [models.OrgUserDTO] is
    outside the two files; its fields are those the handlers touch
    ([UserId], [Login], [Email], [AvatarUrl], [AccessControl]) and the
    remaining attributes of an OrgUser in the data model. *)
Record t : Type := {
  OrgId : Z;
  UserId : Z;
  Email : string;
  Name : string;
  AvatarUrl : string;
  Login : string;
  Role : string;
  LastSeenAtAge : string;
  AccessControl : Metadata
}.

(** [user.AvatarUrl = v] *)
Definition set_AvatarUrl (v : string) (u : t) : t :=
  {| OrgId := OrgId u; UserId := UserId u; Email := Email u; Name := Name u;
     AvatarUrl := v; Login := Login u; Role := Role u;
     LastSeenAtAge := LastSeenAtAge u; AccessControl := AccessControl u |}.

(** [user.AccessControl = v] *)
Definition set_AccessControl (v : Metadata) (u : t) : t :=
  {| OrgId := OrgId u; UserId := UserId u; Email := Email u; Name := Name u;
     AvatarUrl := AvatarUrl u; Login := Login u; Role := Role u;
     LastSeenAtAge := LastSeenAtAge u; AccessControl := v |}.
End OrgUserDTO.

Module UserLookupDTO.
(** [dtos.UserLookupDTO], as the lookup handler builds it. *)
Record t : Type := { UserID : Z; Login : string; AvatarURL : string }.
End UserLookupDTO.

Module AddOrgUserCommand.
Record t : Type := {
  LoginOrEmail : string;
  Role : RoleType;
  OrgId : Z;
  UserId : Z
}.
Definition set_OrgId (v : Z) (c : t) : t :=
  {| LoginOrEmail := LoginOrEmail c; Role := Role c; OrgId := v; UserId := UserId c |}.
Definition set_UserId (v : Z) (c : t) : t :=
  {| LoginOrEmail := LoginOrEmail c; Role := Role c; OrgId := OrgId c; UserId := v |}.
(** The zero value [models.AddOrgUserCommand{}]. *)
Definition zero : t := {| LoginOrEmail := ""; Role := ""; OrgId := 0; UserId := 0 |}.
End AddOrgUserCommand.

Module UpdateOrgUserCommand.
Record t : Type := { Role : RoleType; OrgId : Z; UserId : Z }.
Definition set_OrgId (v : Z) (c : t) : t :=
  {| Role := Role c; OrgId := v; UserId := UserId c |}.
Definition set_UserId (v : Z) (c : t) : t :=
  {| Role := Role c; OrgId := OrgId c; UserId := v |}.
Definition zero : t := {| Role := ""; OrgId := 0; UserId := 0 |}.
End UpdateOrgUserCommand.

Module RemoveOrgUserCommand.
Record t : Type := {
  UserId : Z;
  OrgId : Z;
  ShouldDeleteOrphanedUser : bool;
  UserWasDeleted : bool
}.
End RemoveOrgUserCommand.

Module GetUserByLoginQuery.
(** [Result] is a [*models.User]: [None] is the nil pointer. *)
Record t : Type := { LoginOrEmail : string; Result : option User.t }.
End GetUserByLoginQuery.

Module GetOrgUsersQuery.
Record t : Type := {
  OrgId : Z;
  Query : string;
  Limit : Z;
  Result : list OrgUserDTO.t
}.
End GetOrgUsersQuery.

Module SearchOrgUsersQueryResult.
Record t : Type := {
  TotalCount : Z;
  OrgUsers : list OrgUserDTO.t;
  Page : Z;
  PerPage : Z
}.
Definition zero : t := {| TotalCount := 0; OrgUsers := []; Page := 0; PerPage := 0 |}.
(** The three assignments [query.Result.OrgUsers = us],
    [query.Result.Page = page], [query.Result.PerPage = perPage]. *)
Definition set_paging (us : list OrgUserDTO.t) (page perPage : Z) (r : t) : t :=
  {| TotalCount := TotalCount r; OrgUsers := us; Page := page; PerPage := perPage |}.
End SearchOrgUsersQueryResult.

Module SearchOrgUsersQuery.
Record t : Type := {
  OrgID : Z;
  Query : string;
  Limit : Z;
  Page : Z;
  Result : SearchOrgUsersQueryResult.t
}.
End SearchOrgUsersQuery.

(** ** Responses (package [response]) *)

(** A value stored in a [util.DynMap] ([map[string]interface{}]). *)
Inductive JSONValue : Type :=
| JString (s : string)
| JInt (n : Z).

#[export] Instance JSONValue_eq_dec : EqDecision JSONValue.
Proof. solve_decision. Defined.

(** What a handler hands to [response.JSON]. *)
Inductive Body : Type :=
| BDynMap (m : gmap string JSONValue)
| BOrgUsers (us : list OrgUserDTO.t)
| BLookup (us : list UserLookupDTO.t)
| BSearch (r : SearchOrgUsersQueryResult.t).

Module Response.
(** [Err] is the error [response.Error] attaches for the server-side log;
    a response built by [response.JSON] carries none. *)
Record t : Type := { Status : Z; Payload : Body; Err : option error }.
End Response.

(** [response.JSON(status, body)] *)
Definition response_JSON (status : Z) (body : Body) : Response.t :=
  {| Response.Status := status; Response.Payload := body; Response.Err := None |}.

(** Modelled from the spec: [response.Error(status, message, err)] is not in
    the two files; "errors are [{message}] with an HTTP status", and the
    original error is kept for the server-side log. *)
Definition response_Error (status : Z) (message : string) (err : option error)
  : Response.t :=
  {| Response.Status := status;
     Response.Payload := BDynMap {[ "message" := JString message ]};
     Response.Err := err |}.

(** Modelled from the spec: [response.Success(message)] is a 200 whose body
    is [{message}]. *)
Definition response_Success (message : string) : Response.t :=
  response_JSON 200 (BDynMap {[ "message" := JString message ]}).

(** A handler returns a response, or dereferences a nil pointer and
    panics. *)
Inductive Outcome : Type :=
| Returned (r : Response.t)
| NilDereference.

(** ** Collaborators *)

(** The packages the handlers import and whose code is outside the two
    files.  Their types are opaque here and their functions are taken as
    given: [models.RoleType.IsValid], [web.Bind] into each command type
    (it fills the command from the request body and may fail),
    [dtos.IsHiddenUser], [dtos.GetGravatarUrl] and
    [accesscontrol.GetResourcesMetadata]. *)
Class Packages : Type := {
  models_SignedInUser : Type;
  setting_Cfg : Type;
  http_Request : Type;
  accesscontrol_Permission : Type;
  RoleType_IsValid : RoleType -> bool;
  web_Bind_AddOrgUserCommand :
    http_Request -> AddOrgUserCommand.t -> AddOrgUserCommand.t * option error;
  web_Bind_UpdateOrgUserCommand :
    http_Request -> UpdateOrgUserCommand.t -> UpdateOrgUserCommand.t * option error;
  dtos_IsHiddenUser : string -> models_SignedInUser -> setting_Cfg -> bool;
  dtos_GetGravatarUrl : string -> string;
  accesscontrol_GetResourcesMetadata :
    list accesscontrol_Permission -> string -> gmap string bool ->
    gmap string Metadata
}.

(** [fmt.Sprint] of an [int64]: its decimal numeral. *)
Definition fmt_Sprint (n : Z) : string := pretty n.

Module ReqContext.
(** [models.ReqContext]: the request, the caller's organization and
    identity, and the accessors of the query string and the route. *)
Record t `{Packages} : Type := {
  Req : http_Request;
  OrgId : Z;
  SignedInUser : models_SignedInUser;
  Query : string -> string;
  QueryInt : string -> Z;
  QueryBool : string -> bool;
  ParamsInt64 : string -> Z
}.
End ReqContext.

Module AccessControl.
(** The [accesscontrol.AccessControl] interface, as far as the handlers
    call it. *)
Record t `{Packages} : Type := {
  IsDisabled : bool;
  GetUserPermissions :
    models_SignedInUser -> list accesscontrol_Permission * option error
}.
End AccessControl.

Module HTTPServer.
(** The fields of [HTTPServer] the handlers read, apart from [SQLStore]
    (the [Store] interface below) and [log] (the [logged] lines of the
    world).  [AccessControl = None] is the nil interface. *)
Record t `{Packages} : Type := {
  AccessControl : option AccessControl.t;
  Cfg : setting_Cfg
}.
End HTTPServer.

(** The store interface behind [hs.SQLStore], over a store state [S].
    Each method gets the command or query and the state, and returns the
    command or query as it left it, its error and the new state. *)
Class Store (S : Type) : Type := {
  GetUserByLogin :
    GetUserByLoginQuery.t -> S -> GetUserByLoginQuery.t * option error * S;
  AddOrgUser :
    AddOrgUserCommand.t -> S -> AddOrgUserCommand.t * option error * S;
  GetOrgUsers :
    GetOrgUsersQuery.t -> S -> GetOrgUsersQuery.t * option error * S;
  SearchOrgUsers :
    SearchOrgUsersQuery.t -> S -> SearchOrgUsersQuery.t * option error * S;
  UpdateOrgUser :
    UpdateOrgUserCommand.t -> S -> UpdateOrgUserCommand.t * option error * S;
  RemoveOrgUser :
    RemoveOrgUserCommand.t -> S -> RemoveOrgUserCommand.t * option error * S
}.

(** A store method invoked by a handler, with the argument as passed. *)
Inductive StoreCall : Type :=
| CallGetUserByLogin (q : GetUserByLoginQuery.t)
| CallAddOrgUser (c : AddOrgUserCommand.t)
| CallGetOrgUsers (q : GetOrgUsersQuery.t)
| CallSearchOrgUsers (q : SearchOrgUsersQuery.t)
| CallUpdateOrgUser (c : UpdateOrgUserCommand.t)
| CallRemoveOrgUser (c : RemoveOrgUserCommand.t).

(** One line written with [hs.log.Error(msg, "error", err)]. *)
Record LogEntry : Type := { log_msg : string; log_err : error }.

(** What a handler can change: the state of the store, the lines logged,
    and (as a ghost record for the proofs) the store calls made so far, in
    order. *)
Record World (S : Type) : Type := {
  db : S;
  logged : list LogEntry;
  calls : list StoreCall
}.
Arguments db {S} _.
Arguments logged {S} _.
Arguments calls {S} _.

(** ** The handler monad: state passing over [World] *)

Definition M (S A : Type) : Type := World S -> A * World S.

Definition ret {S A} (a : A) : M S A := fun w => (a, w).

Definition bind {S A B} (m : M S A) (k : A -> M S B) : M S B :=
  fun w => let '(a, w') := m w in k a w'.

Declare Scope handler_scope.
Delimit Scope handler_scope with handler.
Notation "'let*' x := m 'in' k" := (bind m (fun x => k))
  (at level 10, x pattern, m at level 100, k at level 200) : handler_scope.
Local Open Scope handler_scope.

(** Invoke a store method: record the call, run it on the store's state. *)
Definition invoke {S A} (call : A -> StoreCall)
    (method : A -> S -> A * option error * S) (arg : A) : M S (A * option error) :=
  fun w =>
    let '(arg', err, s') := method arg (db w) in
    ((arg', err),
     {| db := s'; logged := logged w; calls := calls w ++ [call arg] |}).

(** [hs.log.Error(msg, "error", err)] *)
Definition log_Error {S} (msg : string) (err : error) : M S unit :=
  fun w =>
    (tt, {| db := db w;
            logged := logged w ++ [{| log_msg := msg; log_err := err |}];
            calls := calls w |}).

Section Handlers.
Context `{Pk : Packages} {S : Type} `{St : Store S}.

(** ** Adding a member *)

Definition addOrgUserHelper (hs : HTTPServer.t) (cmd : AddOrgUserCommand.t)
  : M S Outcome :=
  if negb (RoleType_IsValid (AddOrgUserCommand.Role cmd)) then
    ret (Returned (response_Error 400 "Invalid role specified" None))
  else
    let userQuery :=
      {| GetUserByLoginQuery.LoginOrEmail := AddOrgUserCommand.LoginOrEmail cmd;
         GetUserByLoginQuery.Result := None |} in
    let* (userQuery, err) := invoke CallGetUserByLogin GetUserByLogin userQuery in
    match err with
    | Some _ => ret (Returned (response_Error 404 "User not found" None))
    | None =>
      match GetUserByLoginQuery.Result userQuery with
      | None => ret NilDereference
      | Some userToAdd =>
        let cmd := AddOrgUserCommand.set_UserId (User.Id userToAdd) cmd in
        let* (cmd, err) := invoke CallAddOrgUser AddOrgUser cmd in
        match err with
        | Some err =>
          if errors_Is err ErrOrgUserAlreadyAdded then
            ret (Returned (response_JSON 409 (BDynMap
              (<[ "message" := JString "User is already member of this organization" ]>
               (<[ "userId" := JInt (AddOrgUserCommand.UserId cmd) ]> ∅)))))
          else
            ret (Returned
              (response_Error 500 "Could not add user to organization" (Some err)))
        | None =>
          ret (Returned (response_JSON 200 (BDynMap
            (<[ "message" := JString "User added to organization" ]>
             (<[ "userId" := JInt (AddOrgUserCommand.UserId cmd) ]> ∅)))))
        end
      end
    end.

(** POST /api/org/users *)
Definition AddOrgUserToCurrentOrg (hs : HTTPServer.t) (c : ReqContext.t)
  : M S Outcome :=
  let '(cmd, err) := web_Bind_AddOrgUserCommand (ReqContext.Req c) AddOrgUserCommand.zero in
  match err with
  | Some err => ret (Returned (response_Error 400 "bad request data" (Some err)))
  | None =>
    let cmd := AddOrgUserCommand.set_OrgId (ReqContext.OrgId c) cmd in
    addOrgUserHelper hs cmd
  end.

(** POST /api/orgs/:orgId/users *)
Definition AddOrgUser_handler (hs : HTTPServer.t) (c : ReqContext.t)
  : M S Outcome :=
  let '(cmd, err) := web_Bind_AddOrgUserCommand (ReqContext.Req c) AddOrgUserCommand.zero in
  match err with
  | Some err => ret (Returned (response_Error 400 "bad request data" (Some err)))
  | None =>
    let cmd := AddOrgUserCommand.set_OrgId (ReqContext.ParamsInt64 c ":orgId") cmd in
    addOrgUserHelper hs cmd
  end.

(** ** Listing members *)

(** The access-control service is read, never changed, by the handlers:
    [getUserAccessControlMetadata] is a function of the server and the
    request. *)

(** One round of the loop [for _, user := range query.Result] of
    [getOrgUsersHelper], on the pair [(filteredUsers, userIDs)]. *)
Definition filter_step (hs : HTTPServer.t) (signedInUser : models_SignedInUser)
    (acc : list OrgUserDTO.t * gmap string bool) (user : OrgUserDTO.t)
  : list OrgUserDTO.t * gmap string bool :=
  let '(filteredUsers, userIDs) := acc in
  if dtos_IsHiddenUser (OrgUserDTO.Login user) signedInUser (HTTPServer.Cfg hs) then
    (filteredUsers, userIDs)
  else
    let user := OrgUserDTO.set_AvatarUrl (dtos_GetGravatarUrl (OrgUserDTO.Email user)) user in
    let userIDs := <[ fmt_Sprint (OrgUserDTO.UserId user) := true ]> userIDs in
    (filteredUsers ++ [user], userIDs).

Definition getUserAccessControlMetadata (hs : HTTPServer.t) (c : ReqContext.t)
    (resourceIDs : gmap string bool)
  : gmap string Metadata * option error :=
  match HTTPServer.AccessControl hs with
  | None => (∅, None)
  | Some ac =>
    if AccessControl.IsDisabled ac || negb (ReqContext.QueryBool c "accesscontrol") then
      (∅, None)
    else
      let '(userPermissions, err) :=
        AccessControl.GetUserPermissions ac (ReqContext.SignedInUser c) in
      if bool_decide (err <> None) || Nat.eqb (length userPermissions) 0 then
        (∅, err)
      else
        (accesscontrol_GetResourcesMetadata userPermissions "users" resourceIDs, None)
  end.

Definition getOrgUsersHelper (hs : HTTPServer.t) (c : ReqContext.t)
    (query : GetOrgUsersQuery.t) (signedInUser : models_SignedInUser)
  : M S (list OrgUserDTO.t * option error) :=
  let* (query, err) := invoke CallGetOrgUsers GetOrgUsers query in
  match err with
  | Some err => ret ([], Some err)
  | None =>
    let '(filteredUsers, userIDs) :=
      fold_left (filter_step hs signedInUser) (GetOrgUsersQuery.Result query) ([], ∅) in
    let '(accessControlMetadata, errAC) := getUserAccessControlMetadata hs c userIDs in
    match errAC with
    | Some errAC =>
      let* _ := log_Error "Failed to get access control metadata" errAC in
      ret (filteredUsers, None)
    | None =>
      (* for i := range filteredUsers: every element is updated in place *)
      let filteredUsers :=
        map (fun u =>
               OrgUserDTO.set_AccessControl
                 (default ∅ (accessControlMetadata !! fmt_Sprint (OrgUserDTO.UserId u))) u)
            filteredUsers in
      ret (filteredUsers, None)
    end
  end.

(** GET /api/org/users *)
Definition GetOrgUsersForCurrentOrg (hs : HTTPServer.t) (c : ReqContext.t)
  : M S Response.t :=
  let* (result, err) :=
    getOrgUsersHelper hs c
      {| GetOrgUsersQuery.OrgId := ReqContext.OrgId c;
         GetOrgUsersQuery.Query := ReqContext.Query c "query";
         GetOrgUsersQuery.Limit := ReqContext.QueryInt c "limit";
         GetOrgUsersQuery.Result := [] |}
      (ReqContext.SignedInUser c) in
  match err with
  | Some err =>
    ret (response_Error 500 "Failed to get users for current organization" (Some err))
  | None => ret (response_JSON 200 (BOrgUsers result))
  end.

(** One round of the loop [for _, u := range orgUsers] of the lookup. *)
Definition lookup_step (result : list UserLookupDTO.t) (u : OrgUserDTO.t)
  : list UserLookupDTO.t :=
  result ++ [{| UserLookupDTO.UserID := OrgUserDTO.UserId u;
                UserLookupDTO.Login := OrgUserDTO.Login u;
                UserLookupDTO.AvatarURL := OrgUserDTO.AvatarUrl u |}].

(** GET /api/org/users/lookup *)
Definition GetOrgUsersForCurrentOrgLookup (hs : HTTPServer.t) (c : ReqContext.t)
  : M S Response.t :=
  let* (orgUsers, err) :=
    getOrgUsersHelper hs c
      {| GetOrgUsersQuery.OrgId := ReqContext.OrgId c;
         GetOrgUsersQuery.Query := ReqContext.Query c "query";
         GetOrgUsersQuery.Limit := ReqContext.QueryInt c "limit";
         GetOrgUsersQuery.Result := [] |}
      (ReqContext.SignedInUser c) in
  match err with
  | Some err =>
    ret (response_Error 500 "Failed to get users for current organization" (Some err))
  | None =>
    let result := fold_left lookup_step orgUsers [] in
    ret (response_JSON 200 (BLookup result))
  end.

(** GET /api/orgs/:orgId/users *)
Definition GetOrgUsers_handler (hs : HTTPServer.t) (c : ReqContext.t)
  : M S Response.t :=
  let* (result, err) :=
    getOrgUsersHelper hs c
      {| GetOrgUsersQuery.OrgId := ReqContext.ParamsInt64 c ":orgId";
         GetOrgUsersQuery.Query := "";
         GetOrgUsersQuery.Limit := 0;
         GetOrgUsersQuery.Result := [] |}
      (ReqContext.SignedInUser c) in
  match err with
  | Some err =>
    ret (response_Error 500 "Failed to get users for organization" (Some err))
  | None => ret (response_JSON 200 (BOrgUsers result))
  end.

(** ** Paged search *)

(** One round of the loop [for _, user := range query.Result.OrgUsers]. *)
Definition search_step (hs : HTTPServer.t) (c : ReqContext.t)
    (filteredUsers : list OrgUserDTO.t) (user : OrgUserDTO.t)
  : list OrgUserDTO.t :=
  if dtos_IsHiddenUser (OrgUserDTO.Login user) (ReqContext.SignedInUser c)
       (HTTPServer.Cfg hs) then
    filteredUsers
  else
    let user := OrgUserDTO.set_AvatarUrl (dtos_GetGravatarUrl (OrgUserDTO.Email user)) user in
    filteredUsers ++ [user].

(** GET /api/org/users/search *)
Definition SearchOrgUsersWithPaging (hs : HTTPServer.t) (c : ReqContext.t)
  : M S Response.t :=
  let perPage := ReqContext.QueryInt c "perpage" in
  let perPage := if (perPage <=? 0)%Z then 1000 else perPage in
  let page := ReqContext.QueryInt c "page" in
  let page := if (page <? 1)%Z then 1 else page in
  let query :=
    {| SearchOrgUsersQuery.OrgID := ReqContext.OrgId c;
       SearchOrgUsersQuery.Query := ReqContext.Query c "query";
       SearchOrgUsersQuery.Limit := perPage;
       SearchOrgUsersQuery.Page := page;
       SearchOrgUsersQuery.Result := SearchOrgUsersQueryResult.zero |} in
  let* (query, err) := invoke CallSearchOrgUsers SearchOrgUsers query in
  match err with
  | Some err =>
    ret (response_Error 500 "Failed to get users for current organization" (Some err))
  | None =>
    let filteredUsers :=
      fold_left (search_step hs c)
        (SearchOrgUsersQueryResult.OrgUsers (SearchOrgUsersQuery.Result query)) [] in
    let result :=
      SearchOrgUsersQueryResult.set_paging filteredUsers page perPage
        (SearchOrgUsersQuery.Result query) in
    ret (response_JSON 200 (BSearch result))
  end.

(** ** Updating a role *)

Definition updateOrgUserHelper (hs : HTTPServer.t) (cmd : UpdateOrgUserCommand.t)
  : M S Response.t :=
  if negb (RoleType_IsValid (UpdateOrgUserCommand.Role cmd)) then
    ret (response_Error 400 "Invalid role specified" None)
  else
    let* (cmd, err) := invoke CallUpdateOrgUser UpdateOrgUser cmd in
    match err with
    | Some err =>
      if errors_Is err ErrLastOrgAdmin then
        ret (response_Error 400
               "Cannot change role so that there is no organization admin left" None)
      else
        ret (response_Error 500 "Failed update org user" (Some err))
    | None => ret (response_Success "Organization user updated")
    end.

(** PATCH /api/org/users/:userId *)
Definition UpdateOrgUserForCurrentOrg (hs : HTTPServer.t) (c : ReqContext.t)
  : M S Response.t :=
  let '(cmd, err) := web_Bind_UpdateOrgUserCommand (ReqContext.Req c) UpdateOrgUserCommand.zero in
  match err with
  | Some err => ret (response_Error 400 "bad request data" (Some err))
  | None =>
    let cmd := UpdateOrgUserCommand.set_OrgId (ReqContext.OrgId c) cmd in
    let cmd := UpdateOrgUserCommand.set_UserId (ReqContext.ParamsInt64 c ":userId") cmd in
    updateOrgUserHelper hs cmd
  end.

(** PATCH /api/orgs/:orgId/users/:userId *)
Definition UpdateOrgUser_handler (hs : HTTPServer.t) (c : ReqContext.t)
  : M S Response.t :=
  let '(cmd, err) := web_Bind_UpdateOrgUserCommand (ReqContext.Req c) UpdateOrgUserCommand.zero in
  match err with
  | Some err => ret (response_Error 400 "bad request data" (Some err))
  | None =>
    let cmd := UpdateOrgUserCommand.set_OrgId (ReqContext.ParamsInt64 c ":orgId") cmd in
    let cmd := UpdateOrgUserCommand.set_UserId (ReqContext.ParamsInt64 c ":userId") cmd in
    updateOrgUserHelper hs cmd
  end.

(** ** Removing a member *)

Definition removeOrgUserHelper (hs : HTTPServer.t) (cmd : RemoveOrgUserCommand.t)
  : M S Response.t :=
  let* (cmd, err) := invoke CallRemoveOrgUser RemoveOrgUser cmd in
  match err with
  | Some err =>
    if errors_Is err ErrLastOrgAdmin then
      ret (response_Error 400 "Cannot remove last organization admin" None)
    else
      ret (response_Error 500 "Failed to remove user from organization" (Some err))
  | None =>
    if RemoveOrgUserCommand.UserWasDeleted cmd then
      ret (response_Success "User deleted")
    else
      ret (response_Success "User removed from organization")
  end.

(** DELETE /api/org/users/:userId *)
Definition RemoveOrgUserForCurrentOrg (hs : HTTPServer.t) (c : ReqContext.t)
  : M S Response.t :=
  removeOrgUserHelper hs
    {| RemoveOrgUserCommand.UserId := ReqContext.ParamsInt64 c ":userId";
       RemoveOrgUserCommand.OrgId := ReqContext.OrgId c;
       RemoveOrgUserCommand.ShouldDeleteOrphanedUser := true;
       RemoveOrgUserCommand.UserWasDeleted := false |}.

(** DELETE /api/orgs/:orgId/users/:userId *)
Definition RemoveOrgUser_handler (hs : HTTPServer.t) (c : ReqContext.t)
  : M S Response.t :=
  removeOrgUserHelper hs
    {| RemoveOrgUserCommand.UserId := ReqContext.ParamsInt64 c ":userId";
       RemoveOrgUserCommand.OrgId := ReqContext.ParamsInt64 c ":orgId";
       RemoveOrgUserCommand.ShouldDeleteOrphanedUser := false;
       RemoveOrgUserCommand.UserWasDeleted := false |}.

End Handlers.

(** ** Observations used by the statements *)

(** The user records a response returns, each by its identifier and
    login; an error or message body returns none. *)
Definition response_users (r : Response.t) : list (Z * string) :=
  match Response.Payload r with
  | BOrgUsers us => map (fun u => (OrgUserDTO.UserId u, OrgUserDTO.Login u)) us
  | BLookup us => map (fun u => (UserLookupDTO.UserID u, UserLookupDTO.Login u)) us
  | BSearch r =>
    map (fun u => (OrgUserDTO.UserId u, OrgUserDTO.Login u))
      (SearchOrgUsersQueryResult.OrgUsers r)
  | BDynMap _ => []
  end.

(** The store rows a requester may see, each with its avatar URL set: what
    the loops over the store's rows are meant to produce. *)
Definition visible `{Packages} (hs : HTTPServer.t) (signedInUser : models_SignedInUser)
    (u : OrgUserDTO.t) : bool :=
  negb (dtos_IsHiddenUser (OrgUserDTO.Login u) signedInUser (HTTPServer.Cfg hs)).

Definition with_avatar `{Packages} (u : OrgUserDTO.t) : OrgUserDTO.t :=
  OrgUserDTO.set_AvatarUrl (dtos_GetGravatarUrl (OrgUserDTO.Email u)) u.

Definition to_lookup (u : OrgUserDTO.t) : UserLookupDTO.t :=
  {| UserLookupDTO.UserID := OrgUserDTO.UserId u;
     UserLookupDTO.Login := OrgUserDTO.Login u;
     UserLookupDTO.AvatarURL := OrgUserDTO.AvatarUrl u |}.

(** The full user records of a list or search response. *)
Definition response_records (r : Response.t) : list OrgUserDTO.t :=
  match Response.Payload r with
  | BOrgUsers us => us
  | BSearch r => SearchOrgUsersQueryResult.OrgUsers r
  | BLookup _ | BDynMap _ => []
  end.

(** The body [{message, userId}] under status 200: the shape of a
    successful add. *)
Definition success_shaped_200 (o : Outcome) : Prop :=
  exists m, o = Returned {| Response.Status := 200; Response.Payload := BDynMap m;
                            Response.Err := None |}
            /\ is_Some (m !! "message") /\ is_Some (m !! "userId").

(** ** Contracts of the store

    The handlers rely on the store for the membership rules; these are the
    two promises of the store the statements below assume, for an
    observation [obs] of its state (the membership relation, the
    accounts). *)

(** An update or removal refused with the last-admin error leaves [obs]
    as it was. *)
Definition rejects_atomically {S T : Type} `{Store S} (obs : S -> T) : Prop :=
  (forall cmd s cmd' err s',
      UpdateOrgUser cmd s = (cmd', Some err, s') ->
      errors_Is err ErrLastOrgAdmin = true -> obs s' = obs s)
  /\ (forall cmd s cmd' err s',
      RemoveOrgUser cmd s = (cmd', Some err, s') ->
      errors_Is err ErrLastOrgAdmin = true -> obs s' = obs s).

(** A removal that does not request orphan cleanup leaves [obs] as it
    was. *)
Definition deletes_only_on_request {S T : Type} `{Store S} (obs : S -> T) : Prop :=
  forall cmd s cmd' err s',
    RemoveOrgUserCommand.ShouldDeleteOrphanedUser cmd = false ->
    RemoveOrgUser cmd s = (cmd', err, s') -> obs s' = obs s.

End Api.

(** * A sample deployment

    Concrete collaborators on which the statements below are exercised:
    an instance of the helper packages and an in-memory store. *)
Module Sample.
Import Api.

Record SignedInUser : Type := { IsGrafanaAdmin : bool; Login : string }.

Record Cfg : Type := { HiddenUsers : list string }.

(** The decoded body of a request, [(loginOrEmail, role)]; [None] when the
    body does not parse. *)
Definition Request : Type := option (string * string).

(** Modelled from the spec: the built-in roles Viewer, Editor and Admin. *)
Definition IsValid (r : RoleType) : bool :=
  bool_decide (r = "Viewer") || bool_decide (r = "Editor") || bool_decide (r = "Admin").

(** Modelled from the spec: the visibility filter suppresses hidden system
    accounts relative to the requesting identity. *)
Definition IsHiddenUser (userLogin : string) (signedInUser : SignedInUser) (cfg : Cfg)
  : bool :=
  if bool_decide (userLogin = "") || IsGrafanaAdmin signedInUser
     || bool_decide (userLogin = Login signedInUser)
  then false
  else bool_decide (userLogin ∈ HiddenUsers cfg).

Definition Bind_AddOrgUserCommand (req : Request) (cmd : AddOrgUserCommand.t)
  : AddOrgUserCommand.t * option error :=
  match req with
  | None => (cmd, Some (ErrOther "invalid request body"))
  | Some (loginOrEmail, role) =>
    ({| AddOrgUserCommand.LoginOrEmail := loginOrEmail;
        AddOrgUserCommand.Role := role;
        AddOrgUserCommand.OrgId := AddOrgUserCommand.OrgId cmd;
        AddOrgUserCommand.UserId := AddOrgUserCommand.UserId cmd |}, None)
  end.

Definition Bind_UpdateOrgUserCommand (req : Request) (cmd : UpdateOrgUserCommand.t)
  : UpdateOrgUserCommand.t * option error :=
  match req with
  | None => (cmd, Some (ErrOther "invalid request body"))
  | Some (_, role) =>
    ({| UpdateOrgUserCommand.Role := role;
        UpdateOrgUserCommand.OrgId := UpdateOrgUserCommand.OrgId cmd;
        UpdateOrgUserCommand.UserId := UpdateOrgUserCommand.UserId cmd |}, None)
  end.

(** Every listed resource gets every permission of the requester. *)
Definition GetResourcesMetadata (permissions : list string) (prefix : string)
    (resourceIDs : gmap string bool) : gmap string Metadata :=
  (fun _ => list_to_map ((fun p => (p, true)) <$> permissions)) <$> resourceIDs.

Definition packages : Packages :=
  {| models_SignedInUser := SignedInUser;
     setting_Cfg := Cfg;
     http_Request := Request;
     accesscontrol_Permission := string;
     RoleType_IsValid := IsValid;
     web_Bind_AddOrgUserCommand := Bind_AddOrgUserCommand;
     web_Bind_UpdateOrgUserCommand := Bind_UpdateOrgUserCommand;
     dtos_IsHiddenUser := IsHiddenUser;
     dtos_GetGravatarUrl := fun email => "/avatar/" +:+ email;
     accesscontrol_GetResourcesMetadata := GetResourcesMetadata |}.

(** ** An in-memory store *)

Record Member : Type := { m_org : Z; m_user : Z; m_role : RoleType }.

(** Modelled from the spec: the SQL store is outside the two files.  It
    keeps the user accounts and the org-membership relation keyed by
    (org, user); an organization always retains an Admin; a removal that
    requests orphan cleanup deletes an account left without membership.
    [outage] makes every operation fail with the given error, as a lost
    database connection does. *)
Record MemStore : Type := {
  users : list User.t;
  members : list Member;
  outage : option error
}.

Definition is_member (org user : Z) (m : Member) : bool :=
  (m_org m =? org)%Z && (m_user m =? user)%Z.

Definition has_admin (org : Z) (ms : list Member) : bool :=
  existsb (fun m => (m_org m =? org)%Z && bool_decide (m_role m = "Admin")) ms.

Definition to_dto (us : list User.t) (m : Member) : OrgUserDTO.t :=
  let u := default {| User.Id := m_user m; User.Login := ""; User.Email := "" |}
             (List.find (fun u => (User.Id u =? m_user m)%Z) us) in
  {| OrgUserDTO.OrgId := m_org m; OrgUserDTO.UserId := m_user m;
     OrgUserDTO.Email := User.Email u; OrgUserDTO.Name := "";
     OrgUserDTO.AvatarUrl := ""; OrgUserDTO.Login := User.Login u;
     OrgUserDTO.Role := m_role m; OrgUserDTO.LastSeenAtAge := "";
     OrgUserDTO.AccessControl := ∅ |}.

Definition org_rows (org : Z) (s : MemStore) : list OrgUserDTO.t :=
  to_dto (users s) <$> List.filter (fun m => (m_org m =? org)%Z) (members s).

Definition mem_GetUserByLogin (q : GetUserByLoginQuery.t) (s : MemStore)
  : GetUserByLoginQuery.t * option error * MemStore :=
  match outage s with
  | Some e => (q, Some e, s)
  | None =>
    let key := GetUserByLoginQuery.LoginOrEmail q in
    match List.find (fun u => bool_decide (User.Login u = key)
                              || bool_decide (User.Email u = key)) (users s) with
    | Some u =>
      ({| GetUserByLoginQuery.LoginOrEmail := key;
          GetUserByLoginQuery.Result := Some u |}, None, s)
    | None => (q, Some ErrUserNotFound, s)
    end
  end.

Definition mem_AddOrgUser (cmd : AddOrgUserCommand.t) (s : MemStore)
  : AddOrgUserCommand.t * option error * MemStore :=
  match outage s with
  | Some e => (cmd, Some e, s)
  | None =>
    let org := AddOrgUserCommand.OrgId cmd in
    let user := AddOrgUserCommand.UserId cmd in
    if existsb (is_member org user) (members s) then
      (cmd, Some ErrOrgUserAlreadyAdded, s)
    else
      (cmd, None,
       {| users := users s;
          members := members s ++
            [{| m_org := org; m_user := user; m_role := AddOrgUserCommand.Role cmd |}];
          outage := None |})
  end.

Definition mem_GetOrgUsers (q : GetOrgUsersQuery.t) (s : MemStore)
  : GetOrgUsersQuery.t * option error * MemStore :=
  match outage s with
  | Some e => (q, Some e, s)
  | None =>
    let rows := org_rows (GetOrgUsersQuery.OrgId q) s in
    let rows := if (0 <? GetOrgUsersQuery.Limit q)%Z
                then take (Z.to_nat (GetOrgUsersQuery.Limit q)) rows else rows in
    ({| GetOrgUsersQuery.OrgId := GetOrgUsersQuery.OrgId q;
        GetOrgUsersQuery.Query := GetOrgUsersQuery.Query q;
        GetOrgUsersQuery.Limit := GetOrgUsersQuery.Limit q;
        GetOrgUsersQuery.Result := rows |}, None, s)
  end.

Definition mem_SearchOrgUsers (q : SearchOrgUsersQuery.t) (s : MemStore)
  : SearchOrgUsersQuery.t * option error * MemStore :=
  match outage s with
  | Some e => (q, Some e, s)
  | None =>
    let rows := org_rows (SearchOrgUsersQuery.OrgID q) s in
    let limit := SearchOrgUsersQuery.Limit q in
    let page_rows :=
      if (0 <? limit)%Z
      then take (Z.to_nat limit)
             (drop (Z.to_nat (limit * (SearchOrgUsersQuery.Page q - 1))) rows)
      else rows in
    ({| SearchOrgUsersQuery.OrgID := SearchOrgUsersQuery.OrgID q;
        SearchOrgUsersQuery.Query := SearchOrgUsersQuery.Query q;
        SearchOrgUsersQuery.Limit := limit;
        SearchOrgUsersQuery.Page := SearchOrgUsersQuery.Page q;
        SearchOrgUsersQuery.Result :=
          {| SearchOrgUsersQueryResult.TotalCount := Z.of_nat (length rows);
             SearchOrgUsersQueryResult.OrgUsers := page_rows;
             SearchOrgUsersQueryResult.Page := 0;
             SearchOrgUsersQueryResult.PerPage := 0 |} |}, None, s)
  end.

Definition mem_UpdateOrgUser (cmd : UpdateOrgUserCommand.t) (s : MemStore)
  : UpdateOrgUserCommand.t * option error * MemStore :=
  match outage s with
  | Some e => (cmd, Some e, s)
  | None =>
    let org := UpdateOrgUserCommand.OrgId cmd in
    let user := UpdateOrgUserCommand.UserId cmd in
    let members' :=
      (fun m => if is_member org user m
                then {| m_org := org; m_user := user;
                        m_role := UpdateOrgUserCommand.Role cmd |}
                else m) <$> members s in
    if has_admin org members' then
      (cmd, None, {| users := users s; members := members'; outage := None |})
    else
      (cmd, Some ErrLastOrgAdmin, s)
  end.

Definition mem_RemoveOrgUser (cmd : RemoveOrgUserCommand.t) (s : MemStore)
  : RemoveOrgUserCommand.t * option error * MemStore :=
  match outage s with
  | Some e => (cmd, Some e, s)
  | None =>
    let org := RemoveOrgUserCommand.OrgId cmd in
    let user := RemoveOrgUserCommand.UserId cmd in
    let members' := List.filter (fun m => negb (is_member org user m)) (members s) in
    if has_admin org members' then
      if RemoveOrgUserCommand.ShouldDeleteOrphanedUser cmd
         && negb (existsb (fun m => (m_user m =? user)%Z) members') then
        ({| RemoveOrgUserCommand.UserId := user;
            RemoveOrgUserCommand.OrgId := org;
            RemoveOrgUserCommand.ShouldDeleteOrphanedUser := true;
            RemoveOrgUserCommand.UserWasDeleted := true |}, None,
         {| users := List.filter (fun u => negb (User.Id u =? user)%Z) (users s);
            members := members'; outage := None |})
      else
        (cmd, None, {| users := users s; members := members'; outage := None |})
    else
      (cmd, Some ErrLastOrgAdmin, s)
  end.

Definition memstore : Store MemStore :=
  {| GetUserByLogin := mem_GetUserByLogin;
     AddOrgUser := mem_AddOrgUser;
     GetOrgUsers := mem_GetOrgUsers;
     SearchOrgUsers := mem_SearchOrgUsers;
     UpdateOrgUser := mem_UpdateOrgUser;
     RemoveOrgUser := mem_RemoveOrgUser |}.

(** ** Sample data: organization 1 with alice (Admin), bob (Viewer) and the
    hidden service account svc; carol has an account and no membership. *)

Definition alice : User.t := {| User.Id := 1; User.Login := "alice"; User.Email := "alice@example.org" |}.
Definition bob : User.t := {| User.Id := 2; User.Login := "bob"; User.Email := "bob@example.org" |}.
Definition carol : User.t := {| User.Id := 3; User.Login := "carol"; User.Email := "carol@example.org" |}.
Definition svc : User.t := {| User.Id := 4; User.Login := "svc"; User.Email := "svc@example.org" |}.

Definition store0 : MemStore :=
  {| users := [alice; bob; carol; svc];
     members := [ {| m_org := 1; m_user := 1; m_role := "Admin" |};
                  {| m_org := 1; m_user := 2; m_role := "Viewer" |};
                  {| m_org := 1; m_user := 4; m_role := "Viewer" |} ];
     outage := None |}.

(** The same store behind a lost connection. *)
Definition store_down : MemStore :=
  {| users := users store0; members := members store0;
     outage := Some (ErrOther "dial tcp: connection refused") |}.

Definition world0 : World MemStore := {| db := store0; logged := []; calls := [] |}.
Definition world_down : World MemStore := {| db := store_down; logged := []; calls := [] |}.

Definition viewer : SignedInUser := {| IsGrafanaAdmin := false; Login := "bob" |}.

Definition cfg0 : Cfg := {| HiddenUsers := ["svc"] |}.

(** A server without access control, and one whose access-control service
    fails to load the requester's permissions. *)
Definition hs0 : @HTTPServer.t packages :=
  {| HTTPServer.AccessControl := None; HTTPServer.Cfg := cfg0 : @setting_Cfg packages |}.

Definition ac_failing : @AccessControl.t packages :=
  {| AccessControl.IsDisabled := false;
     AccessControl.GetUserPermissions :=
       fun _ => ([], Some (ErrOther "permission lookup failed")) |}.

Definition hs_ac_failing : @HTTPServer.t packages :=
  {| HTTPServer.AccessControl := Some ac_failing;
     HTTPServer.Cfg := cfg0 : @setting_Cfg packages |}.

(** A request of bob in organization 1 with the given body, query-string
    integers and [accesscontrol] flag; route parameters [:orgId = 1] and
    [:userId] as given. *)
Definition request (body : Request) (ints : string -> Z) (ac : bool) (userId : Z)
  : @ReqContext.t packages :=
  {| ReqContext.Req := body : @http_Request packages;
     ReqContext.OrgId := 1;
     ReqContext.SignedInUser := viewer : @models_SignedInUser packages;
     ReqContext.Query := fun _ => "";
     ReqContext.QueryInt := ints;
     ReqContext.QueryBool := fun name => bool_decide (name = "accesscontrol") && ac;
     ReqContext.ParamsInt64 :=
       fun name => if bool_decide (name = ":orgId") then 1 else userId |}.

(** A server whose access-control service grants the requester the two
    org-user permissions. *)
Definition ac_granting : @AccessControl.t packages :=
  {| AccessControl.IsDisabled := false;
     AccessControl.GetUserPermissions :=
       fun _ => (["org.users.role:update"; "org.users:remove"]
                   : list (@accesscontrol_Permission packages), None) |}.

Definition hs_ac_granting : @HTTPServer.t packages :=
  {| HTTPServer.AccessControl := Some ac_granting;
     HTTPServer.Cfg := cfg0 : @setting_Cfg packages |}.

(** ** A store on a connection that breaks

    The in-memory store behind a connection that serves [budget] calls and
    then fails every call with a transport error. *)
Record FlakyStore : Type := { inner : MemStore; budget : nat }.

Definition flaky_call {A : Type}
    (method : A -> MemStore -> A * option error * MemStore)
    (arg : A) (s : FlakyStore) : A * option error * FlakyStore :=
  match budget s with
  | O => (arg, Some (ErrOther "read tcp: connection reset by peer"), s)
  | Datatypes.S n =>
    let '(arg', err, m) := method arg (inner s) in
    (arg', err, {| inner := m; budget := n |})
  end.

Definition flakystore : Store FlakyStore :=
  {| GetUserByLogin := flaky_call mem_GetUserByLogin;
     AddOrgUser := flaky_call mem_AddOrgUser;
     GetOrgUsers := flaky_call mem_GetOrgUsers;
     SearchOrgUsers := flaky_call mem_SearchOrgUsers;
     UpdateOrgUser := flaky_call mem_UpdateOrgUser;
     RemoveOrgUser := flaky_call mem_RemoveOrgUser |}.

(** The sample store behind a connection that serves one more call. *)
Definition world_one_call : World FlakyStore :=
  {| db := {| inner := store0; budget := 1 |}; logged := []; calls := [] |}.

(** ** Sample requests *)

(** Adding alice, already a member of organization 1, as a Viewer. *)
Definition add_alice : AddOrgUserCommand.t :=
  {| AddOrgUserCommand.LoginOrEmail := "alice"; AddOrgUserCommand.Role := "Viewer";
     AddOrgUserCommand.OrgId := 1; AddOrgUserCommand.UserId := 0 |}.

(** Demoting, and removing, alice: the only Admin of organization 1. *)
Definition demote_alice : UpdateOrgUserCommand.t :=
  {| UpdateOrgUserCommand.Role := "Viewer"; UpdateOrgUserCommand.OrgId := 1;
     UpdateOrgUserCommand.UserId := 1 |}.

Definition remove_alice : RemoveOrgUserCommand.t :=
  {| RemoveOrgUserCommand.UserId := 1; RemoveOrgUserCommand.OrgId := 1;
     RemoveOrgUserCommand.ShouldDeleteOrphanedUser := true;
     RemoveOrgUserCommand.UserWasDeleted := false |}.

(** Adding bob with a role that does not exist. *)
Definition add_bob_as_owner : AddOrgUserCommand.t :=
  {| AddOrgUserCommand.LoginOrEmail := "bob"; AddOrgUserCommand.Role := "Owner";
     AddOrgUserCommand.OrgId := 1; AddOrgUserCommand.UserId := 0 |}.

(** Bob's request with an empty query string ([perpage] and [page] read as
    0), [:orgId = 1] and [:userId = 2]; the second one asks for the
    access-control metadata. *)
Definition list_request : @ReqContext.t packages := request None (fun _ => 0) false 2.

Definition list_request_ac : @ReqContext.t packages := request None (fun _ => 0) true 2.

(** The sample store answering every call with a last-admin error that a
    lower layer wrapped in context. *)
Definition world_wrapping : World MemStore :=
  {| db := {| users := users store0; members := members store0;
              outage := Some (ErrWrap "update org user" ErrLastOrgAdmin) |};
     logged := []; calls := [] |}.

(** Adding carol, who has an account and no membership, as an Editor. *)
Definition add_carol : AddOrgUserCommand.t :=
  {| AddOrgUserCommand.LoginOrEmail := "carol"; AddOrgUserCommand.Role := "Editor";
     AddOrgUserCommand.OrgId := 1; AddOrgUserCommand.UserId := 0 |}.

(** A body asking to make a member an Editor, and a body that does not
    parse, in bob's request. *)
Definition editor_request : @ReqContext.t packages :=
  request (Some ("carol", "Editor")) (fun _ => 0) false 2.

Definition garbled_request : @ReqContext.t packages :=
  request None (fun _ => 0) false 2.

End Sample.

(** * The users table (UsersTable.tsx)

    The component is a function from its props and its hook state to the
    rendered rows.  An event handler of the rendered tree is the list of
    effects it performs when the user triggers it: a state update or a call
    of one of the two callbacks of the props.  The asynchronous fetch of the
    role options is outside this model; [roleOptions] and [builtinRoles]
    are state the handlers below never write. *)
Module UsersTable.

(** [OrgRole] of @grafana/data and [Role] of app/types, by name. *)
Definition OrgRole : Type := string.
Definition Role : Type := string.

Module OrgUser.
(** The fields of [OrgUser] (app/types) the component reads. *)
Record t : Type := {
  userId : Z;
  login : string;
  email : string;
  name : string;
  avatarUrl : string;
  role : OrgRole;
  lastSeenAtAge : string
}.
End OrgUser.

Inductive AccessControlAction : Type :=
| OrgUsersRoleUpdate
| OrgUsersRemove.

(** [contextSrv] of app/core: the capability flag and the per-row
    permission check. *)
Class ContextSrv : Type := {
  accessControlEnabled : bool;
  hasPermissionInMetadata : AccessControlAction -> OrgUser.t -> bool
}.

Module Props.
(** [onRoleChange] and [onRemoveUser] are the owner's callbacks: calling
    them is an effect, recorded in the world below. *)
Record t : Type := { users : list OrgUser.t; orgId : option Z }.
End Props.

(** The three [useState] cells. *)
Record State : Type := {
  showRemoveModal : bool;
  roleOptions : list Role;
  builtinRoles : gmap string (list Role)
}.

(** [useState(false)], [useState([])], [useState({})] *)
Definition initial : State :=
  {| showRemoveModal := false; roleOptions := []; builtinRoles := ∅ |}.

Inductive Effect : Type :=
| SetShowRemoveModal (b : bool)
| OnRoleChange (newRole : OrgRole) (user : OrgUser.t)
| OnRemoveUser (user : OrgUser.t).

Definition Handler : Type := list Effect.

Record ButtonProps : Type := { onClick : Handler; ariaLabel : string }.

Record ConfirmModalProps : Type := {
  body : string;
  confirmText : string;
  title : string;
  onDismiss : Handler;
  isOpen : bool;
  onConfirm : Handler
}.

(** [UserRolePicker] when [extended], [OrgRolePicker] otherwise. *)
Record RolePickerProps : Type := {
  extended : bool;
  value : OrgRole;
  disabled : bool;
  onChange : OrgRole -> Handler
}.

Record Row : Type := {
  key : string;
  user : OrgUser.t;
  rolePicker : RolePickerProps;
  removeCell : option (ButtonProps * ConfirmModalProps)
}.

(** JavaScript's [Boolean(s)] on a string: false exactly for the empty
    string. *)
Definition Boolean (s : string) : bool := negb (String.eqb s "").

Section Component.
Context `{Ctx : ContextSrv}.

(** The body of [users.map((user, index) => ...)]. *)
Definition render_row (st : State) (index : nat) (user : OrgUser.t) : Row :=
  {| key := pretty (OrgUser.userId user) +:+ "-" +:+ pretty index;
     user := user;
     rolePicker :=
       {| extended := accessControlEnabled;
          value := OrgUser.role user;
          disabled := negb (hasPermissionInMetadata OrgUsersRoleUpdate user);
          onChange := fun newRole => [OnRoleChange newRole user] |};
     removeCell :=
       if hasPermissionInMetadata OrgUsersRemove user then
         Some ({| onClick := [SetShowRemoveModal (Boolean (OrgUser.login user))];
                  ariaLabel := "Delete user" |},
               {| body := "Are you sure you want to delete user "
                            +:+ OrgUser.login user +:+ "?";
                  confirmText := "Delete";
                  title := "Delete";
                  onDismiss := [SetShowRemoveModal false];
                  isOpen := Bool.eqb (Boolean (OrgUser.login user)) (showRemoveModal st);
                  onConfirm := [OnRemoveUser user] |})
       else None |}.

Definition UsersTable (props : Props.t) (st : State) : list Row :=
  imap (render_row st) (Props.users props).

(** ** Interaction *)

(** The component's state and the calls its owner has received, oldest
    first. *)
Record World : Type := {
  state : State;
  removeCalls : list OrgUser.t;
  roleChangeCalls : list (OrgRole * OrgUser.t)
}.

Definition perform (w : World) (e : Effect) : World :=
  match e with
  | SetShowRemoveModal b =>
    {| state := {| showRemoveModal := b;
                   roleOptions := roleOptions (state w);
                   builtinRoles := builtinRoles (state w) |};
       removeCalls := removeCalls w;
       roleChangeCalls := roleChangeCalls w |}
  | OnRoleChange newRole u =>
    {| state := state w; removeCalls := removeCalls w;
       roleChangeCalls := roleChangeCalls w ++ [(newRole, u)] |}
  | OnRemoveUser u =>
    {| state := state w; removeCalls := removeCalls w ++ [u];
       roleChangeCalls := roleChangeCalls w |}
  end.

Definition run (h : Handler) (w : World) : World := fold_left perform h w.

(** Whether the delete prompt of row [i] is rendered open. *)
Definition prompt_open (rows : list Row) (i : nat) : bool :=
  match rows !! i with
  | Some row =>
    match removeCell row with
    | Some (_, modal) => isOpen modal
    | None => false
    end
  | None => false
  end.

(** What the user does to row [i].  A prompt can be confirmed or dismissed
    only while it is open, a role picked only while the picker is enabled;
    anything else leaves the world as it is. *)
Inductive Event : Type :=
| ClickDelete (i : nat)
| Dismiss (i : nat)
| Confirm (i : nat)
| PickRole (i : nat) (newRole : OrgRole).

Definition step (props : Props.t) (w : World) (ev : Event) : World :=
  let rows := UsersTable props (state w) in
  match ev with
  | ClickDelete i =>
    match rows !! i with
    | Some {| removeCell := Some (button, _) |} => run (onClick button) w
    | _ => w
    end
  | Dismiss i =>
    match rows !! i with
    | Some {| removeCell := Some (_, modal) |} =>
      if isOpen modal then run (onDismiss modal) w else w
    | _ => w
    end
  | Confirm i =>
    match rows !! i with
    | Some {| removeCell := Some (_, modal) |} =>
      if isOpen modal then run (onConfirm modal) w else w
    | _ => w
    end
  | PickRole i newRole =>
    match rows !! i with
    | Some row =>
      if disabled (rolePicker row) then w
      else run (onChange (rolePicker row) newRole) w
    | None => w
    end
  end.

(** A session: the events of the user, oldest first, each on the rows
    rendered from the state the previous ones left. *)
Definition run_events (props : Props.t) (w : World) (evs : list Event) : World :=
  fold_left (step props) evs w.

Definition is_confirm (ev : Event) : bool :=
  match ev with Confirm _ => true | _ => false end.

Definition is_pick (ev : Event) : bool :=
  match ev with PickRole _ _ => true | _ => false end.

End Component.

(** ** Sample rows *)

Definition permissive : ContextSrv :=
  {| accessControlEnabled := false; hasPermissionInMetadata := fun _ _ => true |}.

Definition alice : OrgUser.t :=
  {| OrgUser.userId := 1; OrgUser.login := "alice"; OrgUser.email := "alice@example.org";
     OrgUser.name := "Alice"; OrgUser.avatarUrl := "/avatar/1"; OrgUser.role := "Admin";
     OrgUser.lastSeenAtAge := "2m" |}.

Definition bob : OrgUser.t :=
  {| OrgUser.userId := 2; OrgUser.login := "bob"; OrgUser.email := "bob@example.org";
     OrgUser.name := "Bob"; OrgUser.avatarUrl := "/avatar/2"; OrgUser.role := "Viewer";
     OrgUser.lastSeenAtAge := "5d" |}.

(** An account without a login. *)
Definition nameless : OrgUser.t :=
  {| OrgUser.userId := 3; OrgUser.login := ""; OrgUser.email := "ghost@example.org";
     OrgUser.name := ""; OrgUser.avatarUrl := "/avatar/3"; OrgUser.role := "Viewer";
     OrgUser.lastSeenAtAge := "never" |}.

Definition mounted : World :=
  {| state := initial; removeCalls := []; roleChangeCalls := [] |}.

Definition two_rows : Props.t := {| Props.users := [alice; bob]; Props.orgId := Some 1 |}.
Definition one_nameless_row : Props.t :=
  {| Props.users := [nameless]; Props.orgId := Some 1 |}.

End UsersTable.

(** * Properties of the handlers *)

Section ApiProperties.
Import Api.
Context `{Pk : Packages} {S : Type} `{St : Store S}.

Ltac run_handler :=
  unfold addOrgUserHelper, updateOrgUserHelper, removeOrgUserHelper,
    getOrgUsersHelper, bind, invoke, ret, log_Error; cbn.

(** ** Endpoints delegate to their helpers *)

Lemma AddOrgUserToCurrentOrg_delegates hs c cmd :
  web_Bind_AddOrgUserCommand (ReqContext.Req c) AddOrgUserCommand.zero = (cmd, None) ->
  AddOrgUserToCurrentOrg hs c =
  addOrgUserHelper hs (AddOrgUserCommand.set_OrgId (ReqContext.OrgId c) cmd).
Proof. intros Hbind. unfold AddOrgUserToCurrentOrg. now rewrite Hbind. Qed.

Lemma AddOrgUser_handler_delegates hs c cmd :
  web_Bind_AddOrgUserCommand (ReqContext.Req c) AddOrgUserCommand.zero = (cmd, None) ->
  AddOrgUser_handler hs c =
  addOrgUserHelper hs
    (AddOrgUserCommand.set_OrgId (ReqContext.ParamsInt64 c ":orgId") cmd).
Proof. intros Hbind. unfold AddOrgUser_handler. now rewrite Hbind. Qed.

Lemma UpdateOrgUserForCurrentOrg_delegates hs c cmd :
  web_Bind_UpdateOrgUserCommand (ReqContext.Req c) UpdateOrgUserCommand.zero = (cmd, None) ->
  UpdateOrgUserForCurrentOrg hs c =
  updateOrgUserHelper hs
    (UpdateOrgUserCommand.set_UserId (ReqContext.ParamsInt64 c ":userId")
       (UpdateOrgUserCommand.set_OrgId (ReqContext.OrgId c) cmd)).
Proof. intros Hbind. unfold UpdateOrgUserForCurrentOrg. now rewrite Hbind. Qed.

Lemma UpdateOrgUser_handler_delegates hs c cmd :
  web_Bind_UpdateOrgUserCommand (ReqContext.Req c) UpdateOrgUserCommand.zero = (cmd, None) ->
  UpdateOrgUser_handler hs c =
  updateOrgUserHelper hs
    (UpdateOrgUserCommand.set_UserId (ReqContext.ParamsInt64 c ":userId")
       (UpdateOrgUserCommand.set_OrgId (ReqContext.ParamsInt64 c ":orgId") cmd)).
Proof. intros Hbind. unfold UpdateOrgUser_handler. now rewrite Hbind. Qed.

(** A malformed body is answered before any store call. *)
Lemma add_bad_body_no_store_call hs c cmd e w :
  web_Bind_AddOrgUserCommand (ReqContext.Req c) AddOrgUserCommand.zero = (cmd, Some e) ->
  AddOrgUserToCurrentOrg hs c w =
    (Returned (response_Error 400 "bad request data" (Some e)), w).
Proof. intros Hbind. unfold AddOrgUserToCurrentOrg. now rewrite Hbind. Qed.

(** ** Adding a member who is one already *)

(** C1, amended.  When the store's [AddOrgUser] reports that the user is
    already a member, the add-member helper answers with status 409 (not
    200), through [response.JSON]: no error is attached, and the body holds
    the explanatory message and the userId. *)
Theorem add_already_member_409 hs cmd w q s1 u cmd' err s2 :
  RoleType_IsValid (AddOrgUserCommand.Role cmd) = true ->
  GetUserByLogin
    {| GetUserByLoginQuery.LoginOrEmail := AddOrgUserCommand.LoginOrEmail cmd;
       GetUserByLoginQuery.Result := None |} (db w) = (q, None, s1) ->
  GetUserByLoginQuery.Result q = Some u ->
  AddOrgUser (AddOrgUserCommand.set_UserId (User.Id u) cmd) s1 = (cmd', Some err, s2) ->
  errors_Is err ErrOrgUserAlreadyAdded = true ->
  exists m,
    (addOrgUserHelper hs cmd w).1 =
      Returned {| Response.Status := 409; Response.Payload := BDynMap m;
                  Response.Err := None |}
    /\ m !! "message" = Some (JString "User is already member of this organization")
    /\ m !! "userId" = Some (JInt (AddOrgUserCommand.UserId cmd')).
Proof.
  intros Hvalid Hlookup Hres Hadd His.
  run_handler. rewrite Hvalid; cbn.
  rewrite Hlookup; cbn. rewrite Hres; cbn.
  rewrite Hadd; cbn. rewrite His.
  eexists; split; [reflexivity|].
  split; [apply lookup_insert_eq|].
  rewrite lookup_insert_ne by discriminate. apply lookup_insert_eq.
Qed.

(** ** Invalid roles *)

(** C3.  An add-member or update-role request whose role is not valid is
    answered with 400 "Invalid role specified" and the world is returned as
    it was: its record of store calls is unchanged, so no lookup, insert or
    update was issued.  Stated for the two helpers and, for a body that
    binds, for the four endpoints. *)
Theorem invalid_role_400_no_store_call hs w :
  let invalid_role :=
    {| Response.Status := 400;
       Response.Payload := BDynMap {[ "message" := JString "Invalid role specified" ]};
       Response.Err := None |} in
  (forall cmd, RoleType_IsValid (AddOrgUserCommand.Role cmd) = false ->
     addOrgUserHelper hs cmd w = (Returned invalid_role, w))
  /\ (forall cmd, RoleType_IsValid (UpdateOrgUserCommand.Role cmd) = false ->
     updateOrgUserHelper hs cmd w = (invalid_role, w))
  /\ (forall c cmd,
     web_Bind_AddOrgUserCommand (ReqContext.Req c) AddOrgUserCommand.zero = (cmd, None) ->
     RoleType_IsValid (AddOrgUserCommand.Role cmd) = false ->
     AddOrgUserToCurrentOrg hs c w = (Returned invalid_role, w)
     /\ AddOrgUser_handler hs c w = (Returned invalid_role, w))
  /\ (forall c cmd,
     web_Bind_UpdateOrgUserCommand (ReqContext.Req c) UpdateOrgUserCommand.zero = (cmd, None) ->
     RoleType_IsValid (UpdateOrgUserCommand.Role cmd) = false ->
     UpdateOrgUserForCurrentOrg hs c w = (invalid_role, w)
     /\ UpdateOrgUser_handler hs c w = (invalid_role, w)).
Proof.
  intros invalid_role.
  assert (Hadd : forall cmd, RoleType_IsValid (AddOrgUserCommand.Role cmd) = false ->
                 addOrgUserHelper hs cmd w = (Returned invalid_role, w)).
  { intros cmd Hrole. unfold addOrgUserHelper. now rewrite Hrole. }
  assert (Hupd : forall cmd, RoleType_IsValid (UpdateOrgUserCommand.Role cmd) = false ->
                 updateOrgUserHelper hs cmd w = (invalid_role, w)).
  { intros cmd Hrole. unfold updateOrgUserHelper. now rewrite Hrole. }
  split; [exact Hadd|]. split; [exact Hupd|]. split.
  - intros c cmd Hbind Hrole. split.
    + rewrite (AddOrgUserToCurrentOrg_delegates _ _ _ Hbind). now apply Hadd.
    + rewrite (AddOrgUser_handler_delegates _ _ _ Hbind). now apply Hadd.
  - intros c cmd Hbind Hrole. split.
    + rewrite (UpdateOrgUserForCurrentOrg_delegates _ _ _ Hbind). now apply Hupd.
    + rewrite (UpdateOrgUser_handler_delegates _ _ _ Hbind). now apply Hupd.
Qed.

(** ** The last admin *)

(** C2.  When the store refuses an update or a removal with the last-admin
    error, the helper answers 400 with its descriptive message, and any
    observation of the store that the store itself keeps on such a refusal
    (the membership relation) is the same after the handler as before; any
    other store failure on these paths is answered 500. *)
Theorem last_admin_400_membership_unchanged
    hs w (T : Type) (membership : S -> T) :
  rejects_atomically membership ->
  (forall cmd cmd' err s',
     RoleType_IsValid (UpdateOrgUserCommand.Role cmd) = true ->
     UpdateOrgUser cmd (db w) = (cmd', Some err, s') ->
     (errors_Is err ErrLastOrgAdmin = true ->
        (updateOrgUserHelper hs cmd w).1 =
          {| Response.Status := 400;
             Response.Payload := BDynMap {[ "message" := JString
               "Cannot change role so that there is no organization admin left" ]};
             Response.Err := None |}
        /\ membership (db (updateOrgUserHelper hs cmd w).2) = membership (db w))
     /\ (errors_Is err ErrLastOrgAdmin = false ->
        Response.Status (updateOrgUserHelper hs cmd w).1 = 500))
  /\ (forall cmd cmd' err s',
     RemoveOrgUser cmd (db w) = (cmd', Some err, s') ->
     (errors_Is err ErrLastOrgAdmin = true ->
        (removeOrgUserHelper hs cmd w).1 =
          {| Response.Status := 400;
             Response.Payload := BDynMap {[ "message" := JString
               "Cannot remove last organization admin" ]};
             Response.Err := None |}
        /\ membership (db (removeOrgUserHelper hs cmd w).2) = membership (db w))
     /\ (errors_Is err ErrLastOrgAdmin = false ->
        Response.Status (removeOrgUserHelper hs cmd w).1 = 500)).
Proof.
  intros [Hupd Hrem]. split.
  - intros cmd cmd' err s' Hvalid Hcall. run_handler.
    rewrite Hvalid; cbn. rewrite Hcall; cbn. split; intros His; rewrite His; cbn.
    + split; [reflexivity|]. eapply Hupd; eauto.
    + reflexivity.
  - intros cmd cmd' err s' Hcall. run_handler.
    rewrite Hcall; cbn. split; intros His; rewrite His; cbn.
    + split; [reflexivity|]. eapply Hrem; eauto.
    + reflexivity.
Qed.

(** ** The user lookup *)

(** Whatever error the lookup returns, the add-member helper answers 404
    "User not found" and drops the error. *)
Lemma add_lookup_error_404 hs cmd w q err s1 :
  RoleType_IsValid (AddOrgUserCommand.Role cmd) = true ->
  GetUserByLogin
    {| GetUserByLoginQuery.LoginOrEmail := AddOrgUserCommand.LoginOrEmail cmd;
       GetUserByLoginQuery.Result := None |} (db w) = (q, Some err, s1) ->
  (addOrgUserHelper hs cmd w).1 =
    Returned {| Response.Status := 404;
                Response.Payload := BDynMap {[ "message" := JString "User not found" ]};
                Response.Err := None |}.
Proof.
  intros Hvalid Hlookup. run_handler. rewrite Hvalid; cbn. now rewrite Hlookup.
Qed.

(** ** Paged search *)

(** C5.  The paged search issues exactly one store query, whose [Limit] is
    1000 when [perpage <= 0] and [perpage] otherwise, and whose [Page] is 1
    when [page < 1] and [page] otherwise; when that query succeeds, the
    envelope of the 200 response carries the same two values. *)
Theorem search_paging_defaults hs c w :
  exists q,
    calls (SearchOrgUsersWithPaging hs c w).2 = calls w ++ [CallSearchOrgUsers q]
    /\ SearchOrgUsersQuery.OrgID q = ReqContext.OrgId c
    /\ SearchOrgUsersQuery.Query q = ReqContext.Query c "query"
    /\ (ReqContext.QueryInt c "perpage" <= 0 -> SearchOrgUsersQuery.Limit q = 1000)
    /\ (0 < ReqContext.QueryInt c "perpage" ->
        SearchOrgUsersQuery.Limit q = ReqContext.QueryInt c "perpage")
    /\ (ReqContext.QueryInt c "page" < 1 -> SearchOrgUsersQuery.Page q = 1)
    /\ (1 <= ReqContext.QueryInt c "page" ->
        SearchOrgUsersQuery.Page q = ReqContext.QueryInt c "page")
    /\ (forall q' s', SearchOrgUsers q (db w) = (q', None, s') ->
        exists r,
          (SearchOrgUsersWithPaging hs c w).1 =
            {| Response.Status := 200; Response.Payload := BSearch r;
               Response.Err := None |}
          /\ SearchOrgUsersQueryResult.Page r = SearchOrgUsersQuery.Page q
          /\ SearchOrgUsersQueryResult.PerPage r = SearchOrgUsersQuery.Limit q).
Proof.
  unfold SearchOrgUsersWithPaging, bind, invoke, ret.
  set (perPage := if (ReqContext.QueryInt c "perpage" <=? 0)%Z then 1000
                  else ReqContext.QueryInt c "perpage").
  set (page := if (ReqContext.QueryInt c "page" <? 1)%Z then 1
               else ReqContext.QueryInt c "page").
  set (q := {| SearchOrgUsersQuery.OrgID := ReqContext.OrgId c;
               SearchOrgUsersQuery.Query := ReqContext.Query c "query";
               SearchOrgUsersQuery.Limit := perPage;
               SearchOrgUsersQuery.Page := page;
               SearchOrgUsersQuery.Result := SearchOrgUsersQueryResult.zero |}).
  exists q. split.
  { destruct (SearchOrgUsers q (db w)) as [[q' [e|]] s']; reflexivity. }
  split; [reflexivity|]. split; [reflexivity|].
  split. { intros Hle. cbn. unfold perPage. now rewrite (proj2 (Z.leb_le _ _) Hle). }
  split. { intros Hlt. cbn. unfold perPage.
           now rewrite (proj2 (Z.leb_gt _ _) Hlt). }
  split. { intros Hlt. cbn. unfold page. now rewrite (proj2 (Z.ltb_lt _ _) Hlt). }
  split. { intros Hle. cbn. unfold page. now rewrite (proj2 (Z.ltb_ge _ _) Hle). }
  intros q' s' Hcall. rewrite Hcall. cbn. eexists. split; [reflexivity|]. now cbn.
Qed.

(** ** Orphan cleanup *)

(** C9.  The current-org removal endpoint issues exactly one store call,
    [RemoveOrgUser] with [ShouldDeleteOrphanedUser] set; the explicit-org
    endpoint issues the same call with the flag unset.  With a store that
    deletes accounts only on request, the explicit-org endpoint leaves the
    accounts as they were. *)
Theorem orphan_cleanup_only_for_current_org hs c w :
  calls (RemoveOrgUserForCurrentOrg hs c w).2 =
    calls w ++ [CallRemoveOrgUser
      {| RemoveOrgUserCommand.UserId := ReqContext.ParamsInt64 c ":userId";
         RemoveOrgUserCommand.OrgId := ReqContext.OrgId c;
         RemoveOrgUserCommand.ShouldDeleteOrphanedUser := true;
         RemoveOrgUserCommand.UserWasDeleted := false |}]
  /\ calls (RemoveOrgUser_handler hs c w).2 =
    calls w ++ [CallRemoveOrgUser
      {| RemoveOrgUserCommand.UserId := ReqContext.ParamsInt64 c ":userId";
         RemoveOrgUserCommand.OrgId := ReqContext.ParamsInt64 c ":orgId";
         RemoveOrgUserCommand.ShouldDeleteOrphanedUser := false;
         RemoveOrgUserCommand.UserWasDeleted := false |}]
  /\ (forall (T : Type) (accounts : S -> T),
      deletes_only_on_request accounts ->
      accounts (db (RemoveOrgUser_handler hs c w).2) = accounts (db w)).
Proof.
  unfold RemoveOrgUserForCurrentOrg, RemoveOrgUser_handler.
  split; [|split].
  - run_handler.
    destruct (RemoveOrgUser _ (db w)) as [[cmd' [e|]] s'];
      cbn; repeat (match goal with |- context [if ?b then _ else _] => destruct b end);
      reflexivity.
  - run_handler.
    destruct (RemoveOrgUser _ (db w)) as [[cmd' [e|]] s'];
      cbn; repeat (match goal with |- context [if ?b then _ else _] => destruct b end);
      reflexivity.
  - intros T accounts Hstore. run_handler.
    destruct (RemoveOrgUser _ (db w)) as [[cmd' e] s'] eqn:Hcall.
    assert (Hkept : accounts s' = accounts (db w))
      by (eapply Hstore; [|exact Hcall]; reflexivity).
    destruct e as [e|]; cbn;
      repeat (match goal with |- context [if ?b then _ else _] => destruct b end);
      exact Hkept.
Qed.

(** ** The loops over the store's rows *)

Lemma filter_step_fold hs su rows acc ids :
  (fold_left (filter_step hs su) rows (acc, ids)).1 =
  acc ++ map with_avatar (List.filter (visible hs su) rows).
Proof.
  revert acc ids. induction rows as [|u rows IH]; intros acc ids; cbn.
  - now rewrite app_nil_r.
  - unfold visible at 1.
    destruct (dtos_IsHiddenUser (OrgUserDTO.Login u) su (HTTPServer.Cfg hs)); cbn.
    + apply IH.
    + rewrite IH. now rewrite <- app_assoc.
Qed.

Lemma search_step_fold hs c rows acc :
  fold_left (search_step hs c) rows acc =
  acc ++ map with_avatar (List.filter (visible hs (ReqContext.SignedInUser c)) rows).
Proof.
  revert acc. induction rows as [|u rows IH]; intros acc; cbn.
  - now rewrite app_nil_r.
  - unfold search_step at 2. unfold visible at 1.
    destruct (dtos_IsHiddenUser (OrgUserDTO.Login u) _ (HTTPServer.Cfg hs)); cbn.
    + apply IH.
    + rewrite IH. now rewrite <- app_assoc.
Qed.

Lemma lookup_step_fold us acc :
  fold_left lookup_step us acc = acc ++ map to_lookup us.
Proof.
  revert acc. induction us as [|u us IH]; intros acc; cbn.
  - now rewrite app_nil_r.
  - rewrite IH. unfold lookup_step, to_lookup. now rewrite <- app_assoc.
Qed.

(** The metadata lookup fails exactly when the service is configured,
    enabled and asked for, and cannot load the requester's permissions. *)
Lemma metadata_failure hs c ids ac perms e :
  HTTPServer.AccessControl hs = Some ac ->
  AccessControl.IsDisabled ac = false ->
  ReqContext.QueryBool c "accesscontrol" = true ->
  AccessControl.GetUserPermissions ac (ReqContext.SignedInUser c) = (perms, Some e) ->
  getUserAccessControlMetadata hs c ids = (∅, Some e).
Proof.
  intros Hac Hon Hasked Hperms. unfold getUserAccessControlMetadata.
  rewrite Hac, Hon, Hasked; cbn. rewrite Hperms.
  now rewrite bool_decide_true by discriminate.
Qed.

(** What [getOrgUsersHelper] returns: one [GetOrgUsers] call; its error,
    or the visible rows with their avatar, each with the metadata the
    enrichment gave (or untouched when the enrichment failed). *)
Lemma getOrgUsersHelper_result hs c query su w :
  calls (getOrgUsersHelper hs c query su w).2 = calls w ++ [CallGetOrgUsers query]
  /\ match GetOrgUsers query (db w) with
     | (_, Some e, _) => (getOrgUsersHelper hs c query su w).1 = ([], Some e)
     | (q, None, _) =>
       exists attach : OrgUserDTO.t -> OrgUserDTO.t,
         (forall u, exists md, attach u = OrgUserDTO.set_AccessControl md u)
         /\ (getOrgUsersHelper hs c query su w).1 =
            (map attach (map with_avatar
               (List.filter (visible hs su) (GetOrgUsersQuery.Result q))), None)
     end.
Proof.
  run_handler.
  destruct (GetOrgUsers query (db w)) as [[q [e|]] s1]; cbn; [now split|].
  pose proof (filter_step_fold hs su (GetOrgUsersQuery.Result q) [] ∅) as Hfold.
  destruct (fold_left (filter_step hs su) (GetOrgUsersQuery.Result q) ([], ∅))
    as [filteredUsers userIDs].
  cbn in Hfold. subst filteredUsers.
  destruct (getUserAccessControlMetadata hs c userIDs) as [md [errAC|]]; cbn.
  - split; [reflexivity|]. exists (fun u => u). split.
    + intros [? ? ? ? ? ? ? ? ac]. now exists ac.
    + now rewrite map_id.
  - split; [reflexivity|]. eexists. split; [|reflexivity].
    intros u. eexists. reflexivity.
Qed.

Lemma getOrgUsersHelper_enrichment_failure hs c query su w ac perms e q s1 :
  HTTPServer.AccessControl hs = Some ac ->
  AccessControl.IsDisabled ac = false ->
  ReqContext.QueryBool c "accesscontrol" = true ->
  AccessControl.GetUserPermissions ac (ReqContext.SignedInUser c) = (perms, Some e) ->
  GetOrgUsers query (db w) = (q, None, s1) ->
  getOrgUsersHelper hs c query su w =
    ((map with_avatar (List.filter (visible hs su) (GetOrgUsersQuery.Result q)), None),
     {| db := s1;
        logged := logged w ++
          [{| log_msg := "Failed to get access control metadata"; log_err := e |}];
        calls := calls w ++ [CallGetOrgUsers query] |}).
Proof.
  intros Hac Hon Hasked Hperms Hcall. run_handler. rewrite Hcall; cbn.
  pose proof (filter_step_fold hs su (GetOrgUsersQuery.Result q) [] ∅) as Hfold.
  destruct (fold_left (filter_step hs su) (GetOrgUsersQuery.Result q) ([], ∅))
    as [filteredUsers userIDs].
  cbn in Hfold. subst filteredUsers.
  now rewrite (metadata_failure hs c userIDs ac perms e Hac Hon Hasked Hperms).
Qed.

(** ** Enrichment is best effort *)

(** C7.  When the access-control enrichment fails (the service is
    configured, enabled and asked for, and cannot load the requester's
    permissions) and the store returned its rows, the two list endpoints
    and the lookup endpoint answer 200 with the visible rows and their
    avatars, the failure is logged once, and the metadata of each returned
    record is the one of its store row: nothing was attached. *)
Theorem enrichment_failure_is_swallowed hs c w ac perms e :
  HTTPServer.AccessControl hs = Some ac ->
  AccessControl.IsDisabled ac = false ->
  ReqContext.QueryBool c "accesscontrol" = true ->
  AccessControl.GetUserPermissions ac (ReqContext.SignedInUser c) = (perms, Some e) ->
  let entry := {| log_msg := "Failed to get access control metadata"; log_err := e |} in
  let seen := List.filter (visible hs (ReqContext.SignedInUser c)) in
  (forall q s1,
     GetOrgUsers {| GetOrgUsersQuery.OrgId := ReqContext.OrgId c;
                    GetOrgUsersQuery.Query := ReqContext.Query c "query";
                    GetOrgUsersQuery.Limit := ReqContext.QueryInt c "limit";
                    GetOrgUsersQuery.Result := [] |} (db w) = (q, None, s1) ->
     let rows := GetOrgUsersQuery.Result q in
     (GetOrgUsersForCurrentOrg hs c w).1 =
       {| Response.Status := 200;
          Response.Payload := BOrgUsers (map with_avatar (seen rows));
          Response.Err := None |}
     /\ logged (GetOrgUsersForCurrentOrg hs c w).2 = logged w ++ [entry]
     /\ (GetOrgUsersForCurrentOrgLookup hs c w).1 =
       {| Response.Status := 200;
          Response.Payload := BLookup (map to_lookup (map with_avatar (seen rows)));
          Response.Err := None |}
     /\ logged (GetOrgUsersForCurrentOrgLookup hs c w).2 = logged w ++ [entry])
  /\ (forall q s1,
     GetOrgUsers {| GetOrgUsersQuery.OrgId := ReqContext.ParamsInt64 c ":orgId";
                    GetOrgUsersQuery.Query := "";
                    GetOrgUsersQuery.Limit := 0;
                    GetOrgUsersQuery.Result := [] |} (db w) = (q, None, s1) ->
     let rows := GetOrgUsersQuery.Result q in
     (GetOrgUsers_handler hs c w).1 =
       {| Response.Status := 200;
          Response.Payload := BOrgUsers (map with_avatar (seen rows));
          Response.Err := None |}
     /\ logged (GetOrgUsers_handler hs c w).2 = logged w ++ [entry])
  /\ (forall rows,
     map OrgUserDTO.AccessControl (map with_avatar (seen rows)) =
     map OrgUserDTO.AccessControl (seen rows)).
Proof.
  intros Hac Hon Hasked Hperms entry seen. split; [|split].
  - intros q s1 Hcall rows.
    unfold GetOrgUsersForCurrentOrg, GetOrgUsersForCurrentOrgLookup, bind, ret.
    rewrite (getOrgUsersHelper_enrichment_failure _ _ _ _ _ _ _ _ _ _
               Hac Hon Hasked Hperms Hcall).
    cbn. rewrite lookup_step_fold. repeat split; reflexivity.
  - intros q s1 Hcall rows.
    unfold GetOrgUsers_handler, bind, ret.
    rewrite (getOrgUsersHelper_enrichment_failure _ _ _ _ _ _ _ _ _ _
               Hac Hon Hasked Hperms Hcall).
    cbn. split; reflexivity.
  - intros rows. rewrite map_map. apply map_ext. now intros [].
Qed.

(** ** The visibility filter *)

Lemma shown_users_visible hs su rows (attach : OrgUserDTO.t -> OrgUserDTO.t) :
  (forall u, exists md, attach u = OrgUserDTO.set_AccessControl md u) ->
  map (fun u => (OrgUserDTO.UserId u, OrgUserDTO.Login u))
      (map attach (map with_avatar (List.filter (visible hs su) rows))) =
  map (fun u => (OrgUserDTO.UserId u, OrgUserDTO.Login u))
      (List.filter (visible hs su) rows).
Proof.
  intros Hattach. rewrite !map_map. apply map_ext. intros u.
  destruct (Hattach (with_avatar u)) as [md ->]. reflexivity.
Qed.

Lemma lookup_users us :
  map (fun u => (UserLookupDTO.UserID u, UserLookupDTO.Login u)) (map to_lookup us) =
  map (fun u => (OrgUserDTO.UserId u, OrgUserDTO.Login u)) us.
Proof. rewrite map_map. now apply map_ext. Qed.

Lemma visible_rows_sound hs su rows p :
  In p (map (fun u => (OrgUserDTO.UserId u, OrgUserDTO.Login u))
          (List.filter (visible hs su) rows)) ->
  dtos_IsHiddenUser p.2 su (HTTPServer.Cfg hs) = false.
Proof.
  intros Hin. apply in_map_iff in Hin as [u [<- Hu]].
  apply filter_In in Hu as [_ Hvis]. unfold visible in Hvis. cbn.
  now apply negb_true_iff in Hvis.
Qed.

Lemma visible_rows_complete hs su rows u :
  In u rows ->
  dtos_IsHiddenUser (OrgUserDTO.Login u) su (HTTPServer.Cfg hs) = false ->
  In (OrgUserDTO.UserId u, OrgUserDTO.Login u)
     (map (fun u => (OrgUserDTO.UserId u, OrgUserDTO.Login u))
        (List.filter (visible hs su) rows)).
Proof.
  intros Hin Hvis. apply in_map_iff. exists u. split; [reflexivity|].
  apply filter_In. split; [assumption|]. unfold visible. now rewrite Hvis.
Qed.

(** The users a list, lookup or search response returns are the visible
    rows of the store's answer, in the store's order; none when the store
    failed. *)
Ltac list_endpoint_users hs c w query :=
  unfold bind, ret;
  pose proof (getOrgUsersHelper_result hs c query (ReqContext.SignedInUser c) w)
    as [_ Hres];
  destruct (getOrgUsersHelper hs c query (ReqContext.SignedInUser c) w)
    as [[result err] w1];
  cbn in Hres;
  destruct (GetOrgUsers query (db w)) as [[q [e|]] s1];
  [ injection Hres as -> ->; reflexivity
  | destruct Hres as [attach [Hattach Hres]]; injection Hres as -> ->; cbn ].

Lemma GetOrgUsersForCurrentOrg_users hs c w :
  response_users (GetOrgUsersForCurrentOrg hs c w).1 =
  match GetOrgUsers {| GetOrgUsersQuery.OrgId := ReqContext.OrgId c;
                       GetOrgUsersQuery.Query := ReqContext.Query c "query";
                       GetOrgUsersQuery.Limit := ReqContext.QueryInt c "limit";
                       GetOrgUsersQuery.Result := [] |} (db w) with
  | (q, None, _) =>
    map (fun u => (OrgUserDTO.UserId u, OrgUserDTO.Login u))
      (List.filter (visible hs (ReqContext.SignedInUser c)) (GetOrgUsersQuery.Result q))
  | _ => []
  end.
Proof.
  unfold GetOrgUsersForCurrentOrg.
  match goal with |- context [getOrgUsersHelper hs c ?query _] =>
    list_endpoint_users hs c w query end.
  now apply shown_users_visible.
Qed.

Lemma GetOrgUsersForCurrentOrgLookup_users hs c w :
  response_users (GetOrgUsersForCurrentOrgLookup hs c w).1 =
  match GetOrgUsers {| GetOrgUsersQuery.OrgId := ReqContext.OrgId c;
                       GetOrgUsersQuery.Query := ReqContext.Query c "query";
                       GetOrgUsersQuery.Limit := ReqContext.QueryInt c "limit";
                       GetOrgUsersQuery.Result := [] |} (db w) with
  | (q, None, _) =>
    map (fun u => (OrgUserDTO.UserId u, OrgUserDTO.Login u))
      (List.filter (visible hs (ReqContext.SignedInUser c)) (GetOrgUsersQuery.Result q))
  | _ => []
  end.
Proof.
  unfold GetOrgUsersForCurrentOrgLookup.
  match goal with |- context [getOrgUsersHelper hs c ?query _] =>
    list_endpoint_users hs c w query end.
  unfold response_users; cbn. rewrite lookup_step_fold; cbn. rewrite lookup_users.
  now apply shown_users_visible.
Qed.

Lemma GetOrgUsers_handler_users hs c w :
  response_users (GetOrgUsers_handler hs c w).1 =
  match GetOrgUsers {| GetOrgUsersQuery.OrgId := ReqContext.ParamsInt64 c ":orgId";
                       GetOrgUsersQuery.Query := "";
                       GetOrgUsersQuery.Limit := 0;
                       GetOrgUsersQuery.Result := [] |} (db w) with
  | (q, None, _) =>
    map (fun u => (OrgUserDTO.UserId u, OrgUserDTO.Login u))
      (List.filter (visible hs (ReqContext.SignedInUser c)) (GetOrgUsersQuery.Result q))
  | _ => []
  end.
Proof.
  unfold GetOrgUsers_handler.
  match goal with |- context [getOrgUsersHelper hs c ?query _] =>
    list_endpoint_users hs c w query end.
  now apply shown_users_visible.
Qed.

Lemma SearchOrgUsersWithPaging_users hs c w :
  exists query,
    calls (SearchOrgUsersWithPaging hs c w).2 = calls w ++ [CallSearchOrgUsers query]
    /\ response_users (SearchOrgUsersWithPaging hs c w).1 =
       match SearchOrgUsers query (db w) with
       | (q, None, _) =>
         map (fun u => (OrgUserDTO.UserId u, OrgUserDTO.Login u))
           (List.filter (visible hs (ReqContext.SignedInUser c))
              (SearchOrgUsersQueryResult.OrgUsers (SearchOrgUsersQuery.Result q)))
       | _ => []
       end.
Proof.
  unfold SearchOrgUsersWithPaging, bind, invoke, ret.
  eexists. split.
  - match goal with |- context [SearchOrgUsers ?query (db w)] =>
      destruct (SearchOrgUsers query (db w)) as [[q [e|]] s1] end; reflexivity.
  - cbn. match goal with |- context [SearchOrgUsers ?query (db w)] =>
      destruct (SearchOrgUsers query (db w)) as [[q [e|]] s1] end; cbn.
    + reflexivity.
    + unfold response_users; cbn. rewrite search_step_fold; cbn.
      rewrite map_map. now apply map_ext.
Qed.

(** C4.  For every requester, no list, lookup or paged-search response
    returns a user record whose login the visibility filter hides from that
    requester; and when the store answered the handler's query with rows,
    every row that is not hidden is returned (by identifier and login). *)
Theorem hidden_users_are_never_listed hs c w :
  let hidden login :=
    dtos_IsHiddenUser login (ReqContext.SignedInUser c) (HTTPServer.Cfg hs) in
  let none_hidden resp :=
    forall p, In p (response_users resp) -> hidden p.2 = false in
  let all_listed rows resp :=
    forall u, In u rows -> hidden (OrgUserDTO.Login u) = false ->
              In (OrgUserDTO.UserId u, OrgUserDTO.Login u) (response_users resp) in
  (none_hidden (GetOrgUsersForCurrentOrg hs c w).1
   /\ none_hidden (GetOrgUsersForCurrentOrgLookup hs c w).1
   /\ none_hidden (GetOrgUsers_handler hs c w).1
   /\ none_hidden (SearchOrgUsersWithPaging hs c w).1)
  /\ (forall q s1,
      GetOrgUsers {| GetOrgUsersQuery.OrgId := ReqContext.OrgId c;
                     GetOrgUsersQuery.Query := ReqContext.Query c "query";
                     GetOrgUsersQuery.Limit := ReqContext.QueryInt c "limit";
                     GetOrgUsersQuery.Result := [] |} (db w) = (q, None, s1) ->
      all_listed (GetOrgUsersQuery.Result q) (GetOrgUsersForCurrentOrg hs c w).1
      /\ all_listed (GetOrgUsersQuery.Result q) (GetOrgUsersForCurrentOrgLookup hs c w).1)
  /\ (forall q s1,
      GetOrgUsers {| GetOrgUsersQuery.OrgId := ReqContext.ParamsInt64 c ":orgId";
                     GetOrgUsersQuery.Query := "";
                     GetOrgUsersQuery.Limit := 0;
                     GetOrgUsersQuery.Result := [] |} (db w) = (q, None, s1) ->
      all_listed (GetOrgUsersQuery.Result q) (GetOrgUsers_handler hs c w).1)
  /\ (forall query q s1,
      calls (SearchOrgUsersWithPaging hs c w).2 = calls w ++ [CallSearchOrgUsers query] ->
      SearchOrgUsers query (db w) = (q, None, s1) ->
      all_listed (SearchOrgUsersQueryResult.OrgUsers (SearchOrgUsersQuery.Result q))
        (SearchOrgUsersWithPaging hs c w).1).
Proof.
  intros hidden none_hidden all_listed.
  pose proof (GetOrgUsersForCurrentOrg_users hs c w) as Hcur.
  pose proof (GetOrgUsersForCurrentOrgLookup_users hs c w) as Hlook.
  pose proof (GetOrgUsers_handler_users hs c w) as Horg.
  destruct (SearchOrgUsersWithPaging_users hs c w) as [query0 [Hissued Hsearch]].
  split; [|split; [|split]].
  - unfold none_hidden, hidden. repeat split; intros p Hin.
    + rewrite Hcur in Hin.
      match type of Hin with context [GetOrgUsers ?query (db w)] =>
        destruct (GetOrgUsers query (db w)) as [[q [e|]] s1] end;
        cbn in Hin; [destruct Hin|].
      eapply visible_rows_sound; eauto.
    + rewrite Hlook in Hin.
      match type of Hin with context [GetOrgUsers ?query (db w)] =>
        destruct (GetOrgUsers query (db w)) as [[q [e|]] s1] end;
        cbn in Hin; [destruct Hin|].
      eapply visible_rows_sound; eauto.
    + rewrite Horg in Hin.
      match type of Hin with context [GetOrgUsers ?query (db w)] =>
        destruct (GetOrgUsers query (db w)) as [[q [e|]] s1] end;
        cbn in Hin; [destruct Hin|].
      eapply visible_rows_sound; eauto.
    + rewrite Hsearch in Hin.
      destruct (SearchOrgUsers query0 (db w)) as [[q [e|]] s1];
        cbn in Hin; [destruct Hin|].
      eapply visible_rows_sound; eauto.
  - intros q s1 Hcall. rewrite Hcall in Hcur, Hlook.
    split; intros u Hin Hvis; [rewrite Hcur | rewrite Hlook];
      now apply visible_rows_complete.
  - intros q s1 Hcall. rewrite Hcall in Horg.
    intros u Hin Hvis. rewrite Horg. now apply visible_rows_complete.
  - intros query q s1 Hcalls Hcall.
    rewrite Hissued in Hcalls. apply app_inv_head in Hcalls.
    injection Hcalls as ->. rewrite Hcall in Hsearch.
    intros u Hin Hvis. rewrite Hsearch. now apply visible_rows_complete.
Qed.

End ApiProperties.

(** * Properties of the users table *)

Section UsersTableProperties.
Import UsersTable.
Context `{Ctx : ContextSrv}.

Lemma Boolean_true s : Boolean s = true <-> s <> "".
Proof.
  unfold Boolean. rewrite negb_true_iff.
  destruct (String.eqb_spec s ""); split; congruence.
Qed.

Lemma UsersTable_lookup props st i :
  UsersTable props st !! i = render_row st i <$> Props.users props !! i.
Proof. unfold UsersTable. apply list_lookup_imap. Qed.

(** The delete prompt of a row the viewer may remove is open exactly when
    the truthiness of the row's login equals the shared flag. *)
Lemma prompt_open_eq props st i u :
  Props.users props !! i = Some u ->
  hasPermissionInMetadata OrgUsersRemove u = true ->
  prompt_open (UsersTable props st) i =
    Bool.eqb (Boolean (OrgUser.login u)) (showRemoveModal st).
Proof.
  intros Hu Hperm. unfold prompt_open. rewrite UsersTable_lookup, Hu. cbn.
  now rewrite Hperm.
Qed.

(** C10.  The component keeps one boolean for all rows.  Whenever it is
    true, the delete prompt is open for every listed user with a non-empty
    login whom the viewer may remove; so a click on the delete button of one
    such row opens the prompt of every such row, not only its own. *)
Theorem remove_modal_flag_is_shared props :
  (forall st i u,
     showRemoveModal st = true ->
     Props.users props !! i = Some u ->
     OrgUser.login u <> "" ->
     hasPermissionInMetadata OrgUsersRemove u = true ->
     prompt_open (UsersTable props st) i = true)
  /\ (forall w i j ui uj,
     Props.users props !! i = Some ui ->
     Props.users props !! j = Some uj ->
     OrgUser.login ui <> "" -> OrgUser.login uj <> "" ->
     hasPermissionInMetadata OrgUsersRemove ui = true ->
     hasPermissionInMetadata OrgUsersRemove uj = true ->
     prompt_open (UsersTable props (state (step props w (ClickDelete i)))) j = true).
Proof.
  assert (Hshared : forall st i u,
     showRemoveModal st = true ->
     Props.users props !! i = Some u ->
     OrgUser.login u <> "" ->
     hasPermissionInMetadata OrgUsersRemove u = true ->
     prompt_open (UsersTable props st) i = true).
  { intros st i u Hflag Hu Hlogin Hperm.
    rewrite (prompt_open_eq _ _ _ _ Hu Hperm), Hflag.
    now rewrite (proj2 (Boolean_true _) Hlogin). }
  split; [exact Hshared|].
  intros w i j ui uj Hi Hj Hli Hlj Hpi Hpj.
  apply (Hshared _ j uj); try assumption.
  unfold step. rewrite UsersTable_lookup, Hi. cbn. rewrite Hpi. cbn.
  now apply Boolean_true.
Qed.

(** For a row with a non-empty login whose prompt is open, confirming
    calls [onRemoveUser] once with the row's user and changes nothing else;
    dismissing calls nothing, clears the flag and closes the prompt. *)
Lemma confirm_and_dismiss_with_login props w i u :
  Props.users props !! i = Some u ->
  hasPermissionInMetadata OrgUsersRemove u = true ->
  OrgUser.login u <> "" ->
  prompt_open (UsersTable props (state w)) i = true ->
  step props w (Confirm i) =
    {| state := state w; removeCalls := removeCalls w ++ [u];
       roleChangeCalls := roleChangeCalls w |}
  /\ step props w (Dismiss i) =
    {| state := {| showRemoveModal := false;
                   roleOptions := roleOptions (state w);
                   builtinRoles := builtinRoles (state w) |};
       removeCalls := removeCalls w;
       roleChangeCalls := roleChangeCalls w |}
  /\ prompt_open (UsersTable props (state (step props w (Dismiss i)))) i = false.
Proof.
  intros Hu Hperm Hlogin Hopen.
  pose proof Hopen as Hopen'. unfold prompt_open in Hopen'.
  rewrite UsersTable_lookup, Hu in Hopen'. cbn in Hopen'. rewrite Hperm in Hopen'.
  cbn in Hopen'.
  assert (Hdismiss : step props w (Dismiss i) =
    {| state := {| showRemoveModal := false;
                   roleOptions := roleOptions (state w);
                   builtinRoles := builtinRoles (state w) |};
       removeCalls := removeCalls w;
       roleChangeCalls := roleChangeCalls w |}).
  { unfold step. rewrite UsersTable_lookup, Hu. cbn. rewrite Hperm. cbn.
    now rewrite Hopen'. }
  split; [|split].
  - unfold step. rewrite UsersTable_lookup, Hu. cbn. rewrite Hperm. cbn.
    rewrite Hopen'. cbn. now destruct w.
  - exact Hdismiss.
  - rewrite Hdismiss. rewrite (prompt_open_eq _ _ _ _ Hu Hperm). cbn.
    now rewrite (proj2 (Boolean_true _) Hlogin).
Qed.

End UsersTableProperties.

(** * The statements on the sample deployment *)

Section ApiExamples.
Import Api Sample.
#[local] Existing Instance packages.
#[local] Existing Instance memstore.

(** The in-memory store keeps its promises. *)
Lemma memstore_rejects_atomically : @rejects_atomically MemStore _ memstore members.
Proof.
  split; intros cmd s cmd' err s' Hcall _; cbn in Hcall.
  - unfold mem_UpdateOrgUser in Hcall.
    destruct (outage s); [now injection Hcall as _ _ <-|].
    destruct (has_admin _ _); [discriminate|]. now injection Hcall as _ _ <-.
  - unfold mem_RemoveOrgUser in Hcall.
    destruct (outage s); [now injection Hcall as _ _ <-|].
    destruct (has_admin _ _); [|now injection Hcall as _ _ <-].
    destruct (_ && _); discriminate.
Qed.

Lemma memstore_deletes_only_on_request :
  @deletes_only_on_request MemStore _ memstore users.
Proof.
  intros cmd s cmd' err s' Hflag Hcall; cbn in Hcall.
  unfold mem_RemoveOrgUser in Hcall. rewrite Hflag in Hcall. cbn in Hcall.
  destruct (outage s); [now injection Hcall as _ _ <-|].
  destruct (has_admin _ _); now injection Hcall as _ _ <-.
Qed.

Lemma add_already_member_409_witness :
  exists m,
    (@addOrgUserHelper packages _ memstore hs0 add_alice world0).1 =
      Returned {| Response.Status := 409; Response.Payload := BDynMap m;
                  Response.Err := None |}
    /\ m !! "message" = Some (JString "User is already member of this organization")
    /\ m !! "userId" = Some (JInt 1).
Proof.
  apply (@add_already_member_409 packages MemStore memstore hs0 add_alice world0
           {| GetUserByLoginQuery.LoginOrEmail := "alice";
              GetUserByLoginQuery.Result := Some alice |}
           store0 alice (AddOrgUserCommand.set_UserId 1 add_alice)
           ErrOrgUserAlreadyAdded store0); reflexivity.
Defined.

(** C1, as stated, fails: the store reports that alice is already a
    member, and the answer is not a 200. *)
Lemma add_already_member_is_not_200 :
  AddOrgUser (AddOrgUserCommand.set_UserId 1 add_alice) store0 =
    (AddOrgUserCommand.set_UserId 1 add_alice, Some ErrOrgUserAlreadyAdded, store0)
  /\ errors_Is ErrOrgUserAlreadyAdded ErrOrgUserAlreadyAdded = true
  /\ ~ success_shaped_200 (@addOrgUserHelper packages _ memstore hs0 add_alice world0).1.
Proof.
  split; [reflexivity|]. split; [reflexivity|].
  intros [m [Heq _]]. vm_compute in Heq. discriminate Heq.
Qed.

(** Alice is the only Admin of organization 1: demoting her and removing
    her are both refused, and the membership relation stays as it was. *)
Lemma last_admin_400_membership_unchanged_witness :
  ((updateOrgUserHelper hs0 demote_alice world0).1 =
     {| Response.Status := 400;
        Response.Payload := BDynMap {[ "message" := JString
          "Cannot change role so that there is no organization admin left" ]};
        Response.Err := None |}
   /\ members (db (updateOrgUserHelper hs0 demote_alice world0).2) = members store0)
  /\ ((removeOrgUserHelper hs0 remove_alice world0).1 =
     {| Response.Status := 400;
        Response.Payload := BDynMap {[ "message" := JString
          "Cannot remove last organization admin" ]};
        Response.Err := None |}
   /\ members (db (removeOrgUserHelper hs0 remove_alice world0).2) = members store0).
Proof.
  destruct (@last_admin_400_membership_unchanged packages MemStore memstore
              hs0 world0 _ members memstore_rejects_atomically) as [Hupd Hrem].
  split.
  - destruct (Hupd demote_alice demote_alice ErrLastOrgAdmin store0
                eq_refl eq_refl) as [Hlast _].
    exact (Hlast eq_refl).
  - destruct (Hrem remove_alice remove_alice ErrLastOrgAdmin store0 eq_refl)
      as [Hlast _].
    exact (Hlast eq_refl).
Defined.

(** "Owner" is not a role: the request is refused and the store is never
    called. *)
Lemma invalid_role_400_no_store_call_witness :
  addOrgUserHelper hs0 add_bob_as_owner world0 =
    (Returned {| Response.Status := 400;
                 Response.Payload :=
                   BDynMap {[ "message" := JString "Invalid role specified" ]};
                 Response.Err := None |}, world0)
  /\ UpdateOrgUserForCurrentOrg hs0
       (request (Some ("", "Owner")) (fun _ => 0) false 2) world0 =
    ({| Response.Status := 400;
        Response.Payload :=
          BDynMap {[ "message" := JString "Invalid role specified" ]};
        Response.Err := None |}, world0).
Proof.
  destruct (@invalid_role_400_no_store_call packages MemStore memstore hs0 world0)
    as [Hadd [_ [_ Hupd]]].
  split.
  - apply Hadd. reflexivity.
  - refine (proj1 (Hupd _ {| UpdateOrgUserCommand.Role := "Owner";
                             UpdateOrgUserCommand.OrgId := 0;
                             UpdateOrgUserCommand.UserId := 0 |} _ _)); reflexivity.
Defined.

(** Bob lists organization 1: alice is returned, and svc, hidden by the
    configuration, is not. *)
Lemma hidden_users_are_never_listed_witness :
  In (1, "alice") (response_users (GetOrgUsersForCurrentOrg hs0 list_request world0).1)
  /\ In (1, "alice")
       (response_users (GetOrgUsersForCurrentOrgLookup hs0 list_request world0).1)
  /\ ~ In (4, "svc") (response_users (GetOrgUsersForCurrentOrg hs0 list_request world0).1).
Proof.
  destruct (@hidden_users_are_never_listed packages MemStore memstore
              hs0 list_request world0) as [[Hnone _] [Hall _]].
  destruct (Hall _ store0 eq_refl) as [Hlist Hlookup].
  split; [|split].
  - apply (Hlist (to_dto (users store0) {| m_org := 1; m_user := 1; m_role := "Admin" |}));
      [left; reflexivity | reflexivity].
  - apply (Hlookup (to_dto (users store0) {| m_org := 1; m_user := 1; m_role := "Admin" |}));
      [left; reflexivity | reflexivity].
  - intros Hin. apply Hnone in Hin. discriminate Hin.
Defined.

(** [perpage=0&page=0] is searched, and echoed, as page 1 of 1000. *)
Lemma search_paging_defaults_witness :
  exists q r,
    calls (SearchOrgUsersWithPaging hs0 list_request world0).2 = [CallSearchOrgUsers q]
    /\ SearchOrgUsersQuery.Limit q = 1000 /\ SearchOrgUsersQuery.Page q = 1
    /\ (SearchOrgUsersWithPaging hs0 list_request world0).1 =
         {| Response.Status := 200; Response.Payload := BSearch r;
            Response.Err := None |}
    /\ SearchOrgUsersQueryResult.Page r = 1
    /\ SearchOrgUsersQueryResult.PerPage r = 1000.
Proof.
  destruct (@search_paging_defaults packages MemStore memstore hs0 list_request world0)
    as [q [Hcalls [_ [_ [Hlimit [_ [Hpage [_ Hecho]]]]]]]].
  assert (Hcall : exists q' s', SearchOrgUsers q (db world0) = (q', None, s'))
    by (do 2 eexists; reflexivity).
  destruct Hcall as [q' [s' Hcall]].
  destruct (Hecho q' s' Hcall) as [r [Hresp [Hp Hpp]]].
  exists q, r. rewrite Hp, Hpp, Hlimit, Hpage by (cbn; lia).
  repeat split; assumption.
Defined.

(** The permission lookup fails: the list is returned all the same, and
    the failure is in the log. *)
Lemma enrichment_failure_is_swallowed_witness :
  Response.Status (GetOrgUsersForCurrentOrg hs_ac_failing list_request_ac world0).1 = 200
  /\ response_users (GetOrgUsersForCurrentOrg hs_ac_failing list_request_ac world0).1 =
       [(1, "alice"); (2, "bob")]
  /\ logged (GetOrgUsersForCurrentOrg hs_ac_failing list_request_ac world0).2 =
       [{| log_msg := "Failed to get access control metadata";
           log_err := ErrOther "permission lookup failed" |}].
Proof.
  destruct (@enrichment_failure_is_swallowed packages MemStore memstore
              hs_ac_failing list_request_ac world0 ac_failing []
              (ErrOther "permission lookup failed") eq_refl eq_refl eq_refl eq_refl)
    as [Hcur _].
  destruct (Hcur _ store0 eq_refl) as [Hresp [Hlog _]].
  rewrite Hresp, Hlog. repeat split; reflexivity.
Defined.

(** Bob's only membership is organization 1.  Removing him through the
    explicit-org endpoint keeps his account; the current-org endpoint
    deletes it. *)
Lemma orphan_cleanup_only_for_current_org_witness :
  users (db (RemoveOrgUser_handler hs0 list_request world0).2) = users store0
  /\ calls (RemoveOrgUserForCurrentOrg hs0 list_request world0).2 =
       [CallRemoveOrgUser
          {| RemoveOrgUserCommand.UserId := 2; RemoveOrgUserCommand.OrgId := 1;
             RemoveOrgUserCommand.ShouldDeleteOrphanedUser := true;
             RemoveOrgUserCommand.UserWasDeleted := false |}]
  /\ users (db (RemoveOrgUserForCurrentOrg hs0 list_request world0).2) =
       [alice; carol; svc].
Proof.
  destruct (@orphan_cleanup_only_for_current_org packages MemStore memstore
              hs0 list_request world0) as [Hcur [_ Hkept]].
  split; [|split].
  - exact (Hkept _ users memstore_deletes_only_on_request).
  - exact Hcur.
  - reflexivity.
Defined.

(** ** The lookup behind a lost connection *)

(** C6, evaluated.  With the database unreachable the lookup fails with a
    transport error, which is not the not-found report, and the helper
    still answers 404 "User not found" with no error attached. *)
Lemma lookup_outage_is_answered_404 :
  GetUserByLogin {| GetUserByLoginQuery.LoginOrEmail := "alice";
                    GetUserByLoginQuery.Result := None |} store_down =
    ({| GetUserByLoginQuery.LoginOrEmail := "alice";
        GetUserByLoginQuery.Result := None |},
     Some (ErrOther "dial tcp: connection refused"), store_down)
  /\ errors_Is (ErrOther "dial tcp: connection refused") ErrUserNotFound = false
  /\ (addOrgUserHelper hs0 add_alice world_down).1 =
       Returned {| Response.Status := 404;
                   Response.Payload :=
                     BDynMap {[ "message" := JString "User not found" ]};
                   Response.Err := None |}.
Proof. repeat split. Qed.

End ApiExamples.

Section UsersTableExamples.
Import UsersTable.
#[local] Existing Instance permissive.

Lemma remove_modal_flag_is_shared_witness :
  prompt_open (UsersTable two_rows (state (step two_rows mounted (ClickDelete 0)))) 0 = true
  /\ prompt_open (UsersTable two_rows (state (step two_rows mounted (ClickDelete 0)))) 1 = true.
Proof.
  destruct (@remove_modal_flag_is_shared permissive two_rows) as [_ Hclick].
  split.
  - apply (Hclick mounted 0%nat 0%nat alice alice); first [reflexivity | discriminate].
  - apply (Hclick mounted 0%nat 1%nat alice bob); first [reflexivity | discriminate].
Defined.

(** C8, evaluated.  A row without a login shows its delete prompt from the
    first render, and dismissing that prompt leaves it open.  With two
    ordinary rows, the click on alice's delete button opens bob's prompt as
    well, and confirming that one removes bob. *)
Lemma delete_prompt_defects :
  (prompt_open (UsersTable one_nameless_row (state mounted)) 0 = true
   /\ removeCalls (step one_nameless_row mounted (Dismiss 0)) = []
   /\ prompt_open (UsersTable one_nameless_row
                     (state (step one_nameless_row mounted (Dismiss 0)))) 0 = true)
  /\ (prompt_open (UsersTable two_rows (state mounted)) 1 = false
   /\ prompt_open (UsersTable two_rows
                     (state (step two_rows mounted (ClickDelete 0)))) 1 = true
   /\ removeCalls (step two_rows (step two_rows mounted (ClickDelete 0)) (Confirm 1))
      = [bob]).
Proof. repeat split. Qed.

End UsersTableExamples.

(** * Further properties of the handlers *)

Section ApiCoverage.
Import Api.
Context `{Pk : Packages} {S : Type} `{St : Store S}.

Ltac exec :=
  unfold addOrgUserHelper, updateOrgUserHelper, removeOrgUserHelper,
    getOrgUsersHelper, bind, invoke, ret, log_Error; cbn.

(** ** Adding a member: the store calls *)

(** The store calls of [addOrgUserHelper], by case: none for an invalid
    role, the lookup alone when it fails or returns no user, the lookup and
    the insert for the user it returned otherwise. *)
Lemma addOrgUserHelper_calls hs cmd w :
  let lookup :=
    {| GetUserByLoginQuery.LoginOrEmail := AddOrgUserCommand.LoginOrEmail cmd;
       GetUserByLoginQuery.Result := None |} in
  exists new,
    calls (addOrgUserHelper hs cmd w).2 = calls w ++ new
    /\ (new = []
        \/ new = [CallGetUserByLogin lookup]
        \/ exists q s1 u,
             RoleType_IsValid (AddOrgUserCommand.Role cmd) = true
             /\ GetUserByLogin lookup (db w) = (q, None, s1)
             /\ GetUserByLoginQuery.Result q = Some u
             /\ new = [CallGetUserByLogin lookup;
                       CallAddOrgUser (AddOrgUserCommand.set_UserId (User.Id u) cmd)]).
Proof.
  intros lookup. exec.
  destruct (RoleType_IsValid (AddOrgUserCommand.Role cmd)) eqn:Hvalid; cbn.
  2:{ exists []. split; [now rewrite app_nil_r | now left]. }
  fold lookup.
  destruct (GetUserByLogin lookup (db w)) as [[q [e|]] s1] eqn:Hlookup; cbn.
  { eexists. split; [reflexivity | right; now left]. }
  destruct (GetUserByLoginQuery.Result q) as [u|] eqn:Hres; cbn.
  2:{ eexists. split; [reflexivity | right; now left]. }
  exists [CallGetUserByLogin lookup;
          CallAddOrgUser (AddOrgUserCommand.set_UserId (User.Id u) cmd)].
  split.
  - destruct (AddOrgUser _ s1) as [[cmd' [e|]] s2]; cbn;
      [destruct (errors_Is e ErrOrgUserAlreadyAdded)|]; cbn;
      now rewrite <- app_assoc.
  - right; right. exists q, s1, u. repeat split; assumption.
Qed.

Lemma addOrgUserHelper_insert_org hs cmd w :
  exists new,
    calls (addOrgUserHelper hs cmd w).2 = calls w ++ new
    /\ forall a, In (CallAddOrgUser a) new ->
         AddOrgUserCommand.OrgId a = AddOrgUserCommand.OrgId cmd.
Proof.
  destruct (addOrgUserHelper_calls hs cmd w) as [new [Hcalls Hcases]].
  exists new. split; [exact Hcalls|].
  destruct Hcases as [-> | [-> | [q [s1 [u [_ [_ [_ ->]]]]]]]].
  - intros a [].
  - intros a [Ha|[]]. discriminate Ha.
  - intros a [Ha|[Ha|[]]]; [discriminate Ha|]. now injection Ha as <-.
Qed.

(** X3.  Whatever the store answers, [addOrgUserHelper] makes at most two
    store calls, and an insert only after a lookup that returned a user: any
    [AddOrgUser] call it issues carries a valid role, the organization, role
    and login of the command, and the identifier of the user the lookup
    returned. *)
Theorem add_inserts_only_the_looked_up_user hs cmd w :
  exists new,
    calls (addOrgUserHelper hs cmd w).2 = calls w ++ new
    /\ (length new <= 2)%nat
    /\ forall c, In (CallAddOrgUser c) new ->
         RoleType_IsValid (AddOrgUserCommand.Role c) = true
         /\ AddOrgUserCommand.Role c = AddOrgUserCommand.Role cmd
         /\ AddOrgUserCommand.OrgId c = AddOrgUserCommand.OrgId cmd
         /\ AddOrgUserCommand.LoginOrEmail c = AddOrgUserCommand.LoginOrEmail cmd
         /\ exists q s1 u,
              GetUserByLogin
                {| GetUserByLoginQuery.LoginOrEmail := AddOrgUserCommand.LoginOrEmail cmd;
                   GetUserByLoginQuery.Result := None |} (db w) = (q, None, s1)
              /\ GetUserByLoginQuery.Result q = Some u
              /\ AddOrgUserCommand.UserId c = User.Id u.
Proof.
  destruct (addOrgUserHelper_calls hs cmd w) as [new [Hcalls Hcases]].
  exists new. split; [exact Hcalls|].
  destruct Hcases as [-> | [-> | [q [s1 [u [Hvalid [Hlookup [Hres ->]]]]]]]].
  - split; [cbn; lia|]. intros c [].
  - split; [cbn; lia|]. intros c [Hc|[]]. discriminate Hc.
  - split; [cbn; lia|]. intros c [Hc|[Hc|[]]]; [discriminate Hc|].
    injection Hc as <-. cbn. repeat split; try assumption.
    exists q, s1, u. repeat split; assumption.
Qed.

(** X1.  When the lookup returns a user and the insert succeeds, the helper
    answers 200 "User added to organization" with the userId of the command
    as the store left it; it has called the lookup and then the insert for
    the looked-up user, and nothing is logged. *)
Theorem add_member_success hs cmd w q s1 u cmd' s2 :
  RoleType_IsValid (AddOrgUserCommand.Role cmd) = true ->
  GetUserByLogin
    {| GetUserByLoginQuery.LoginOrEmail := AddOrgUserCommand.LoginOrEmail cmd;
       GetUserByLoginQuery.Result := None |} (db w) = (q, None, s1) ->
  GetUserByLoginQuery.Result q = Some u ->
  AddOrgUser (AddOrgUserCommand.set_UserId (User.Id u) cmd) s1 = (cmd', None, s2) ->
  exists m,
    addOrgUserHelper hs cmd w =
      (Returned {| Response.Status := 200; Response.Payload := BDynMap m;
                   Response.Err := None |},
       {| db := s2; logged := logged w;
          calls := calls w ++
            [CallGetUserByLogin
               {| GetUserByLoginQuery.LoginOrEmail := AddOrgUserCommand.LoginOrEmail cmd;
                  GetUserByLoginQuery.Result := None |};
             CallAddOrgUser (AddOrgUserCommand.set_UserId (User.Id u) cmd)] |})
    /\ m !! "message" = Some (JString "User added to organization")
    /\ m !! "userId" = Some (JInt (AddOrgUserCommand.UserId cmd'))
    /\ size m = 2%nat.
Proof.
  intros Hvalid Hlookup Hres Hadd. exec.
  rewrite Hvalid; cbn. rewrite Hlookup; cbn. rewrite Hres; cbn. rewrite Hadd; cbn.
  eexists. split; [now rewrite <- app_assoc|].
  split; [apply lookup_insert_eq|].
  split; [rewrite lookup_insert_ne by discriminate; apply lookup_insert_eq|].
  rewrite map_size_insert_None;
    [now rewrite map_size_insert_None, map_size_empty by apply lookup_empty|].
  rewrite lookup_insert_ne by discriminate. apply lookup_empty.
Qed.

(** X2.  When the insert fails with an error that is not the
    already-a-member report, the helper answers 500 "Could not add user to
    organization" and attaches the store's error. *)
Theorem add_member_store_failure_500 hs cmd w q s1 u cmd' err s2 :
  RoleType_IsValid (AddOrgUserCommand.Role cmd) = true ->
  GetUserByLogin
    {| GetUserByLoginQuery.LoginOrEmail := AddOrgUserCommand.LoginOrEmail cmd;
       GetUserByLoginQuery.Result := None |} (db w) = (q, None, s1) ->
  GetUserByLoginQuery.Result q = Some u ->
  AddOrgUser (AddOrgUserCommand.set_UserId (User.Id u) cmd) s1 = (cmd', Some err, s2) ->
  errors_Is err ErrOrgUserAlreadyAdded = false ->
  (addOrgUserHelper hs cmd w).1 =
    Returned {| Response.Status := 500;
                Response.Payload :=
                  BDynMap {[ "message" := JString "Could not add user to organization" ]};
                Response.Err := Some err |}
  /\ db (addOrgUserHelper hs cmd w).2 = s2.
Proof.
  intros Hvalid Hlookup Hres Hadd Hnot. exec.
  rewrite Hvalid; cbn. rewrite Hlookup; cbn. rewrite Hres; cbn. rewrite Hadd; cbn.
  rewrite Hnot. now split.
Qed.

(** ** Request bodies and scoping *)

(** X4.  A body that does not bind is answered 400 "bad request data" with
    the binding error attached, by each of the four endpoints that read a
    body, and the world is returned as it was: no store call is made. *)
Theorem unbound_body_400_no_store_call hs c w :
  (forall cmd e,
     web_Bind_AddOrgUserCommand (ReqContext.Req c) AddOrgUserCommand.zero = (cmd, Some e) ->
     let bad :=
       {| Response.Status := 400;
          Response.Payload := BDynMap {[ "message" := JString "bad request data" ]};
          Response.Err := Some e |} in
     AddOrgUserToCurrentOrg hs c w = (Returned bad, w)
     /\ AddOrgUser_handler hs c w = (Returned bad, w))
  /\ (forall cmd e,
     web_Bind_UpdateOrgUserCommand (ReqContext.Req c) UpdateOrgUserCommand.zero = (cmd, Some e) ->
     let bad :=
       {| Response.Status := 400;
          Response.Payload := BDynMap {[ "message" := JString "bad request data" ]};
          Response.Err := Some e |} in
     UpdateOrgUserForCurrentOrg hs c w = (bad, w)
     /\ UpdateOrgUser_handler hs c w = (bad, w)).
Proof.
  split; intros cmd e Hbind bad.
  - unfold AddOrgUserToCurrentOrg, AddOrgUser_handler. rewrite Hbind. now split.
  - unfold UpdateOrgUserForCurrentOrg, UpdateOrgUser_handler. rewrite Hbind. now split.
Qed.

(** X5.  The organization and the member a mutation is applied to never
    come from the request body.  For a body that binds with a valid role, the
    update endpoints issue one [UpdateOrgUser] call whose role is the body's,
    whose user is the route's [:userId] and whose organization is the
    caller's (current-org endpoint) or the route's [:orgId]; and every insert
    the add endpoints issue is for the caller's organization, respectively
    the route's [:orgId], whatever organization the body named. *)
Theorem mutations_are_scoped_by_the_route hs c w :
  (forall cmd,
     web_Bind_UpdateOrgUserCommand (ReqContext.Req c) UpdateOrgUserCommand.zero = (cmd, None) ->
     RoleType_IsValid (UpdateOrgUserCommand.Role cmd) = true ->
     calls (UpdateOrgUserForCurrentOrg hs c w).2 =
       calls w ++ [CallUpdateOrgUser
         {| UpdateOrgUserCommand.Role := UpdateOrgUserCommand.Role cmd;
            UpdateOrgUserCommand.OrgId := ReqContext.OrgId c;
            UpdateOrgUserCommand.UserId := ReqContext.ParamsInt64 c ":userId" |}]
     /\ calls (UpdateOrgUser_handler hs c w).2 =
       calls w ++ [CallUpdateOrgUser
         {| UpdateOrgUserCommand.Role := UpdateOrgUserCommand.Role cmd;
            UpdateOrgUserCommand.OrgId := ReqContext.ParamsInt64 c ":orgId";
            UpdateOrgUserCommand.UserId := ReqContext.ParamsInt64 c ":userId" |}])
  /\ (forall cmd,
     web_Bind_AddOrgUserCommand (ReqContext.Req c) AddOrgUserCommand.zero = (cmd, None) ->
     (exists new,
        calls (AddOrgUserToCurrentOrg hs c w).2 = calls w ++ new
        /\ forall a, In (CallAddOrgUser a) new ->
             AddOrgUserCommand.OrgId a = ReqContext.OrgId c)
     /\ (exists new,
        calls (AddOrgUser_handler hs c w).2 = calls w ++ new
        /\ forall a, In (CallAddOrgUser a) new ->
             AddOrgUserCommand.OrgId a = ReqContext.ParamsInt64 c ":orgId")).
Proof.
  split.
  - intros cmd Hbind Hvalid.
    unfold UpdateOrgUserForCurrentOrg, UpdateOrgUser_handler. rewrite Hbind.
    exec. rewrite Hvalid; cbn.
    split;
      match goal with |- context [UpdateOrgUser ?x (db w)] =>
        destruct (UpdateOrgUser x (db w)) as [[cmd' [e|]] s'] end; cbn;
      try (destruct (errors_Is e ErrLastOrgAdmin)); reflexivity.
  - intros cmd Hbind.
    unfold AddOrgUserToCurrentOrg, AddOrgUser_handler. rewrite Hbind.
    split.
    + destruct (addOrgUserHelper_insert_org hs
                  (AddOrgUserCommand.set_OrgId (ReqContext.OrgId c) cmd) w)
        as [new [Hcalls Hnew]].
      exists new. split; [exact Hcalls|]. intros a Ha. now rewrite (Hnew a Ha).
    + destruct (addOrgUserHelper_insert_org hs
                  (AddOrgUserCommand.set_OrgId (ReqContext.ParamsInt64 c ":orgId") cmd) w)
        as [new [Hcalls Hnew]].
      exists new. split; [exact Hcalls|]. intros a Ha. now rewrite (Hnew a Ha).
Qed.

(** ** Successful mutations *)

(** X6.  A successful update is answered 200 "Organization user updated".
    A successful removal is answered 200 with "User deleted" when the store
    reports that it deleted the account, and with "User removed from
    organization" otherwise.  Either makes one store call and logs
    nothing. *)
Theorem mutation_success_messages hs w :
  (forall cmd cmd' s',
     RoleType_IsValid (UpdateOrgUserCommand.Role cmd) = true ->
     UpdateOrgUser cmd (db w) = (cmd', None, s') ->
     updateOrgUserHelper hs cmd w =
       ({| Response.Status := 200;
           Response.Payload :=
             BDynMap {[ "message" := JString "Organization user updated" ]};
           Response.Err := None |},
        {| db := s'; logged := logged w; calls := calls w ++ [CallUpdateOrgUser cmd] |}))
  /\ (forall cmd cmd' s',
     RemoveOrgUser cmd (db w) = (cmd', None, s') ->
     removeOrgUserHelper hs cmd w =
       ({| Response.Status := 200;
           Response.Payload :=
             BDynMap {[ "message" := JString
               (if RemoveOrgUserCommand.UserWasDeleted cmd'
                then "User deleted" else "User removed from organization") ]};
           Response.Err := None |},
        {| db := s'; logged := logged w; calls := calls w ++ [CallRemoveOrgUser cmd] |})).
Proof.
  split.
  - intros cmd cmd' s' Hvalid Hcall. exec. rewrite Hvalid; cbn. now rewrite Hcall.
  - intros cmd cmd' s' Hcall. exec. rewrite Hcall; cbn.
    now destruct (RemoveOrgUserCommand.UserWasDeleted cmd').
Qed.

(** ** Reading members: store failures *)

(** X7.  When the store query of a list, lookup or search request fails,
    the endpoint answers 500 with its message and the store's error
    attached, returns no user, logs nothing and makes no further call: the
    enrichment is not attempted. *)
Theorem read_store_failure_500 hs c w :
  let failed msg e :=
    {| Response.Status := 500;
       Response.Payload := BDynMap {[ "message" := JString msg ]};
       Response.Err := Some e |} in
  (forall q e s1,
     GetOrgUsers {| GetOrgUsersQuery.OrgId := ReqContext.OrgId c;
                    GetOrgUsersQuery.Query := ReqContext.Query c "query";
                    GetOrgUsersQuery.Limit := ReqContext.QueryInt c "limit";
                    GetOrgUsersQuery.Result := [] |} (db w) = (q, Some e, s1) ->
     (GetOrgUsersForCurrentOrg hs c w).1 =
       failed "Failed to get users for current organization" e
     /\ (GetOrgUsersForCurrentOrgLookup hs c w).1 =
       failed "Failed to get users for current organization" e
     /\ logged (GetOrgUsersForCurrentOrg hs c w).2 = logged w
     /\ logged (GetOrgUsersForCurrentOrgLookup hs c w).2 = logged w)
  /\ (forall q e s1,
     GetOrgUsers {| GetOrgUsersQuery.OrgId := ReqContext.ParamsInt64 c ":orgId";
                    GetOrgUsersQuery.Query := "";
                    GetOrgUsersQuery.Limit := 0;
                    GetOrgUsersQuery.Result := [] |} (db w) = (q, Some e, s1) ->
     (GetOrgUsers_handler hs c w).1 = failed "Failed to get users for organization" e
     /\ logged (GetOrgUsers_handler hs c w).2 = logged w)
  /\ (forall query q e s1,
     calls (SearchOrgUsersWithPaging hs c w).2 = calls w ++ [CallSearchOrgUsers query] ->
     SearchOrgUsers query (db w) = (q, Some e, s1) ->
     (SearchOrgUsersWithPaging hs c w).1 =
       failed "Failed to get users for current organization" e
     /\ logged (SearchOrgUsersWithPaging hs c w).2 = logged w).
Proof.
  intros failed. split; [|split].
  - intros q e s1 Hcall.
    unfold GetOrgUsersForCurrentOrg, GetOrgUsersForCurrentOrgLookup. exec.
    rewrite Hcall; cbn. now repeat split.
  - intros q e s1 Hcall. unfold GetOrgUsers_handler. exec.
    rewrite Hcall; cbn. now split.
  - intros query q e s1 Hcalls Hcall. revert Hcalls.
    unfold SearchOrgUsersWithPaging, bind, invoke, ret.
    match goal with |- context [SearchOrgUsers ?query0 (db w)] =>
      set (issued := query0) end.
    intros Hcalls.
    assert (Hsame : issued = query).
    { destruct (SearchOrgUsers issued (db w)) as [[q0 [e0|]] s0]; cbn in Hcalls;
        apply app_inv_head in Hcalls; now injection Hcalls. }
    rewrite Hsame, Hcall. now split.
Qed.

(** ** Enrichment *)

(** The identifiers collected by the loop of [getOrgUsersHelper]: the
    decimal identifier of each visible row, mapped to [true]. *)
Lemma filter_step_ids hs su rows acc ids k :
  (fold_left (filter_step hs su) rows (acc, ids)).2 !! k =
  if existsb (fun u => bool_decide (fmt_Sprint (OrgUserDTO.UserId u) = k))
       (List.filter (visible hs su) rows)
  then Some true else ids !! k.
Proof.
  revert acc ids. induction rows as [|u rows IH]; intros acc ids; cbn; [reflexivity|].
  unfold visible at 1.
  destruct (dtos_IsHiddenUser (OrgUserDTO.Login u) su (HTTPServer.Cfg hs)); cbn.
  - apply IH.
  - rewrite IH.
    destruct (existsb _ (List.filter (visible hs su) rows));
      [now rewrite orb_true_r|].
    rewrite orb_false_r. case_bool_decide as Hk.
    + rewrite <- Hk. apply lookup_insert_eq.
    + now rewrite lookup_insert_ne.
Qed.

(** When the enrichment is switched off, the metadata lookup returns no
    metadata and no error. *)
Definition enrichment_off (hs : HTTPServer.t) (c : ReqContext.t) : Prop :=
  HTTPServer.AccessControl hs = None
  \/ exists ac, HTTPServer.AccessControl hs = Some ac
       /\ (AccessControl.IsDisabled ac = true
           \/ ReqContext.QueryBool c "accesscontrol" = false
           \/ AccessControl.GetUserPermissions ac (ReqContext.SignedInUser c) = ([], None)).

Lemma metadata_off hs c ids :
  enrichment_off hs c -> getUserAccessControlMetadata hs c ids = (∅, None).
Proof.
  unfold getUserAccessControlMetadata.
  intros [-> | [ac [-> [Hoff | [Hnot | Hnone]]]]]; [reflexivity| | |].
  - now rewrite Hoff.
  - rewrite Hnot. now rewrite orb_true_r.
  - destruct (_ || _); [reflexivity|]. now rewrite Hnone.
Qed.

(** X8.  Without an access-control service, with the service disabled,
    without [accesscontrol=true] in the query, or when the requester has no
    permission at all, the list helper returns the visible rows in the
    store's order, each with its avatar and with empty access-control
    metadata, whatever metadata the store row carried; nothing is logged. *)
Theorem list_without_enrichment hs c query su w q s1 :
  enrichment_off hs c ->
  GetOrgUsers query (db w) = (q, None, s1) ->
  getOrgUsersHelper hs c query su w =
    ((map (fun u => OrgUserDTO.set_AccessControl ∅ (with_avatar u))
        (List.filter (visible hs su) (GetOrgUsersQuery.Result q)), None),
     {| db := s1; logged := logged w; calls := calls w ++ [CallGetOrgUsers query] |}).
Proof.
  intros Hoff Hcall. exec. rewrite Hcall; cbn.
  pose proof (filter_step_fold hs su (GetOrgUsersQuery.Result q) [] ∅) as Hfold.
  destruct (fold_left (filter_step hs su) (GetOrgUsersQuery.Result q) ([], ∅))
    as [filteredUsers userIDs].
  cbn in Hfold. subst filteredUsers.
  rewrite (metadata_off hs c userIDs Hoff). cbn. rewrite map_map.
  replace (map (fun u => OrgUserDTO.set_AccessControl ∅ (with_avatar u)))
    with (map (fun u =>
                 OrgUserDTO.set_AccessControl
                   (default ∅ ((∅ : gmap string Metadata)
                                 !! fmt_Sprint (OrgUserDTO.UserId (with_avatar u))))
                   (with_avatar u))); [reflexivity|].
  f_equal.
Qed.

(** X9.  When the service is configured, enabled and asked for and the
    requester has permissions, [GetResourcesMetadata] is consulted for the
    resource kind "users" with exactly the decimal identifiers of the
    visible rows (a hidden row's identifier is never passed), and each
    returned row carries the metadata found under its own decimal
    identifier, or empty metadata when there is none; nothing is logged. *)
Theorem list_with_enrichment hs c query su w q s1 ac perms :
  HTTPServer.AccessControl hs = Some ac ->
  AccessControl.IsDisabled ac = false ->
  ReqContext.QueryBool c "accesscontrol" = true ->
  AccessControl.GetUserPermissions ac (ReqContext.SignedInUser c) = (perms, None) ->
  perms <> [] ->
  GetOrgUsers query (db w) = (q, None, s1) ->
  exists ids : gmap string bool,
    (forall k b, ids !! k = Some b <->
       b = true /\ exists u, In u (GetOrgUsersQuery.Result q)
                             /\ visible hs su u = true
                             /\ fmt_Sprint (OrgUserDTO.UserId u) = k)
    /\ getOrgUsersHelper hs c query su w =
       ((map (fun u =>
                OrgUserDTO.set_AccessControl
                  (default ∅ (accesscontrol_GetResourcesMetadata perms "users" ids
                                !! fmt_Sprint (OrgUserDTO.UserId u)))
                  (with_avatar u))
           (List.filter (visible hs su) (GetOrgUsersQuery.Result q)), None),
        {| db := s1; logged := logged w; calls := calls w ++ [CallGetOrgUsers query] |}).
Proof.
  intros Hac Hon Hasked Hperms Hsome Hcall. exec. rewrite Hcall; cbn.
  pose proof (filter_step_fold hs su (GetOrgUsersQuery.Result q) [] ∅) as Hfold.
  pose proof (fun k => filter_step_ids hs su (GetOrgUsersQuery.Result q) [] ∅ k) as Hids.
  destruct (fold_left (filter_step hs su) (GetOrgUsersQuery.Result q) ([], ∅))
    as [filteredUsers userIDs].
  cbn in Hfold, Hids. subst filteredUsers.
  exists userIDs. split.
  - intros k b. rewrite Hids, lookup_empty. split.
    + destruct (existsb _ _) eqn:Hex; [|discriminate].
      intros [= <-]. split; [reflexivity|].
      apply existsb_exists in Hex as [u [Hin Hk]].
      apply filter_In in Hin as [Hin Hvis].
      apply bool_decide_eq_true in Hk. now exists u.
    + intros [-> [u [Hin [Hvis Hk]]]].
      assert (Hex : existsb
                (fun u => bool_decide (fmt_Sprint (OrgUserDTO.UserId u) = k))
                (List.filter (visible hs su) (GetOrgUsersQuery.Result q)) = true).
      { apply existsb_exists. exists u. split; [now apply filter_In|].
        now apply bool_decide_eq_true. }
      now rewrite Hex.
  - unfold getUserAccessControlMetadata. rewrite Hac, Hon, Hasked; cbn.
    rewrite Hperms. destruct perms as [|p perms]; [contradiction|]. cbn.
    now rewrite map_map.
Qed.

(** ** Lookup, avatars and search *)

(** X10.  On the same request and world, the lookup endpoint answers with
    the projection of what the current-org list endpoint answers: the same
    users in the same order, each reduced to identifier, login and avatar
    URL; on a store failure both give the same error response.  Both leave
    the same world behind. *)
Theorem lookup_projects_the_list hs c w :
  (GetOrgUsersForCurrentOrgLookup hs c w).2 = (GetOrgUsersForCurrentOrg hs c w).2
  /\ match Response.Payload (GetOrgUsersForCurrentOrg hs c w).1 with
     | BOrgUsers us =>
       (GetOrgUsersForCurrentOrgLookup hs c w).1 =
         {| Response.Status := 200;
            Response.Payload :=
              BLookup (map (fun u =>
                              {| UserLookupDTO.UserID := OrgUserDTO.UserId u;
                                 UserLookupDTO.Login := OrgUserDTO.Login u;
                                 UserLookupDTO.AvatarURL := OrgUserDTO.AvatarUrl u |}) us);
            Response.Err := None |}
     | _ => (GetOrgUsersForCurrentOrgLookup hs c w).1 = (GetOrgUsersForCurrentOrg hs c w).1
     end.
Proof.
  unfold GetOrgUsersForCurrentOrgLookup, GetOrgUsersForCurrentOrg, bind, ret.
  destruct (getOrgUsersHelper hs c _ (ReqContext.SignedInUser c) w)
    as [[result [e|]] w1]; cbn; [now split|].
  split; [reflexivity|]. now rewrite lookup_step_fold.
Qed.

(** X11.  Every user record a list or search response returns has its
    avatar URL computed from its e-mail address, whatever avatar URL the
    store row carried and whatever the enrichment did. *)
Theorem avatars_are_computed_from_email hs c w :
  let computed resp :=
    Forall (fun u => OrgUserDTO.AvatarUrl u = dtos_GetGravatarUrl (OrgUserDTO.Email u))
      (response_records resp) in
  computed (GetOrgUsersForCurrentOrg hs c w).1
  /\ computed (GetOrgUsers_handler hs c w).1
  /\ computed (SearchOrgUsersWithPaging hs c w).1.
Proof.
  assert (Hlist : forall attach : OrgUserDTO.t -> OrgUserDTO.t,
    (forall u, exists md, attach u = OrgUserDTO.set_AccessControl md u) ->
    forall rows,
    Forall (fun u => OrgUserDTO.AvatarUrl u = dtos_GetGravatarUrl (OrgUserDTO.Email u))
      (map attach (map with_avatar
         (List.filter (visible hs (ReqContext.SignedInUser c)) rows)))).
  { intros attach Hattach rows. rewrite map_map. apply Forall_forall.
    intros u' Hin. apply list_elem_of_In, in_map_iff in Hin as [u [<- _]].
    destruct (Hattach (with_avatar u)) as [md ->]. reflexivity. }
  intros computed. unfold computed. split; [|split].
  - unfold GetOrgUsersForCurrentOrg, bind, ret.
    match goal with |- context [getOrgUsersHelper hs c ?query _] =>
      pose proof (getOrgUsersHelper_result hs c query (ReqContext.SignedInUser c) w)
        as [_ Hres];
      destruct (getOrgUsersHelper hs c query (ReqContext.SignedInUser c) w)
        as [[result err] w1];
      destruct (GetOrgUsers query (db w)) as [[q [e|]] s1] end; cbn in Hres.
    + injection Hres as -> ->. constructor.
    + destruct Hres as [attach [Hattach Hres]]. injection Hres as -> ->. cbn.
      now apply Hlist.
  - unfold GetOrgUsers_handler, bind, ret.
    match goal with |- context [getOrgUsersHelper hs c ?query _] =>
      pose proof (getOrgUsersHelper_result hs c query (ReqContext.SignedInUser c) w)
        as [_ Hres];
      destruct (getOrgUsersHelper hs c query (ReqContext.SignedInUser c) w)
        as [[result err] w1];
      destruct (GetOrgUsers query (db w)) as [[q [e|]] s1] end; cbn in Hres.
    + injection Hres as -> ->. constructor.
    + destruct Hres as [attach [Hattach Hres]]. injection Hres as -> ->. cbn.
      now apply Hlist.
  - unfold SearchOrgUsersWithPaging, bind, invoke, ret.
    match goal with |- context [SearchOrgUsers ?query (db w)] =>
      destruct (SearchOrgUsers query (db w)) as [[q [e|]] s1] end; cbn.
    + constructor.
    + unfold response_records; cbn. rewrite search_step_fold; cbn.
      rewrite <- (map_id (map with_avatar _)). apply (Hlist (fun u => u)).
      intros [? ? ? ? ? ? ? ? md]. now exists md.
Qed.

(** X12.  A successful paged search returns the visible rows of the store's
    page in the store's order, each with its avatar and with the
    access-control metadata of its store row (the search never enriches,
    even when asked), and passes the store's total count through unchanged:
    the count still includes rows the filter removed.  It logs nothing. *)
Theorem search_success_envelope hs c w query q s1 :
  calls (SearchOrgUsersWithPaging hs c w).2 = calls w ++ [CallSearchOrgUsers query] ->
  SearchOrgUsers query (db w) = (q, None, s1) ->
  let page := SearchOrgUsersQuery.Result q in
  exists r,
    (SearchOrgUsersWithPaging hs c w).1 =
      {| Response.Status := 200; Response.Payload := BSearch r; Response.Err := None |}
    /\ SearchOrgUsersQueryResult.TotalCount r = SearchOrgUsersQueryResult.TotalCount page
    /\ SearchOrgUsersQueryResult.OrgUsers r =
         map with_avatar
           (List.filter (visible hs (ReqContext.SignedInUser c))
              (SearchOrgUsersQueryResult.OrgUsers page))
    /\ map OrgUserDTO.AccessControl (SearchOrgUsersQueryResult.OrgUsers r) =
         map OrgUserDTO.AccessControl
           (List.filter (visible hs (ReqContext.SignedInUser c))
              (SearchOrgUsersQueryResult.OrgUsers page))
    /\ (length (SearchOrgUsersQueryResult.OrgUsers r)
          <= length (SearchOrgUsersQueryResult.OrgUsers page))%nat
    /\ logged (SearchOrgUsersWithPaging hs c w).2 = logged w
    /\ db (SearchOrgUsersWithPaging hs c w).2 = s1.
Proof.
  unfold SearchOrgUsersWithPaging, bind, invoke, ret.
  match goal with |- context [SearchOrgUsers ?query0 (db w)] =>
    set (issued := query0) end.
  intros Hcalls Hcall.
  assert (Hsame : issued = query).
  { destruct (SearchOrgUsers issued (db w)) as [[q0 [e0|]] s0]; cbn in Hcalls;
      apply app_inv_head in Hcalls; now injection Hcalls. }
  rewrite Hsame, Hcall. cbn. rewrite search_step_fold. cbn.
  eexists. split; [reflexivity|]. cbn. split; [reflexivity|]. split; [reflexivity|].
  split. { rewrite map_map. apply map_ext. now intros []. }
  split. { rewrite length_map. apply filter_length_le. }
  now split.
Qed.

(** ** What the list endpoints ask the store *)

(** X13.  Each list or lookup request makes exactly one store call.  The
    current-org endpoints forward the caller's organization and the [query]
    and [limit] parameters of the query string; the explicit-org endpoint
    asks for the route's organization with no text filter and no limit,
    whatever the query string says. *)
Theorem list_queries_forwarded hs c w :
  let current :=
    {| GetOrgUsersQuery.OrgId := ReqContext.OrgId c;
       GetOrgUsersQuery.Query := ReqContext.Query c "query";
       GetOrgUsersQuery.Limit := ReqContext.QueryInt c "limit";
       GetOrgUsersQuery.Result := [] |} in
  calls (GetOrgUsersForCurrentOrg hs c w).2 = calls w ++ [CallGetOrgUsers current]
  /\ calls (GetOrgUsersForCurrentOrgLookup hs c w).2 = calls w ++ [CallGetOrgUsers current]
  /\ calls (GetOrgUsers_handler hs c w).2 =
       calls w ++ [CallGetOrgUsers
         {| GetOrgUsersQuery.OrgId := ReqContext.ParamsInt64 c ":orgId";
            GetOrgUsersQuery.Query := "";
            GetOrgUsersQuery.Limit := 0;
            GetOrgUsersQuery.Result := [] |}].
Proof.
  intros current.
  unfold GetOrgUsersForCurrentOrg, GetOrgUsersForCurrentOrgLookup,
    GetOrgUsers_handler, bind, ret. fold current.
  repeat split;
    match goal with |- context [getOrgUsersHelper hs c ?query _] =>
      pose proof (getOrgUsersHelper_result hs c query (ReqContext.SignedInUser c) w)
        as [Hcalls _];
      destruct (getOrgUsersHelper hs c query (ReqContext.SignedInUser c) w)
        as [[result [e|]] w1] end; exact Hcalls.
Qed.

(** ** Wrapped errors *)

Lemma errors_Is_refl err : errors_Is err err = true.
Proof. destruct err; cbn; now rewrite decide_True. Qed.

Lemma errors_Is_wrap msg err target :
  errors_Is err target = true -> errors_Is (ErrWrap msg err) target = true.
Proof. intros His. cbn. now destruct (decide (ErrWrap msg err = target)). Qed.

(** X17.  The handlers recognise a sentinel through any wrapping.  When the
    store returns the last-admin error wrapped in context, the update and
    remove helpers still answer 400; and a wrapped error that contains no
    last-admin error is answered 500 with the wrapped error attached. *)
Theorem wrapped_last_admin_is_recognised hs w msg :
  (forall cmd cmd' err s',
     RoleType_IsValid (UpdateOrgUserCommand.Role cmd) = true ->
     UpdateOrgUser cmd (db w) = (cmd', Some (ErrWrap msg err), s') ->
     (errors_Is err ErrLastOrgAdmin = true ->
        Response.Status (updateOrgUserHelper hs cmd w).1 = 400
        /\ Response.Err (updateOrgUserHelper hs cmd w).1 = None)
     /\ (errors_Is err ErrLastOrgAdmin = false ->
        Response.Status (updateOrgUserHelper hs cmd w).1 = 500
        /\ Response.Err (updateOrgUserHelper hs cmd w).1 = Some (ErrWrap msg err)))
  /\ (forall cmd cmd' err s',
     RemoveOrgUser cmd (db w) = (cmd', Some (ErrWrap msg err), s') ->
     (errors_Is err ErrLastOrgAdmin = true ->
        Response.Status (removeOrgUserHelper hs cmd w).1 = 400
        /\ Response.Err (removeOrgUserHelper hs cmd w).1 = None)
     /\ (errors_Is err ErrLastOrgAdmin = false ->
        Response.Status (removeOrgUserHelper hs cmd w).1 = 500
        /\ Response.Err (removeOrgUserHelper hs cmd w).1 = Some (ErrWrap msg err))).
Proof.
  assert (Hwrap : forall err,
            errors_Is (ErrWrap msg err) ErrLastOrgAdmin = errors_Is err ErrLastOrgAdmin).
  { intros err. cbn. now rewrite decide_False by discriminate. }
  split.
  - intros cmd cmd' err s' Hvalid Hcall. exec. rewrite Hvalid; cbn.
    rewrite Hcall. cbn -[errors_Is]. rewrite Hwrap.
    split; intros His; rewrite His; now split.
  - intros cmd cmd' err s' Hcall. exec.
    rewrite Hcall. cbn -[errors_Is]. rewrite Hwrap.
    split; intros His; rewrite His; now split.
Qed.

End ApiCoverage.

(** * Further properties of the users table *)

Section UsersTableCoverage.
Import UsersTable.
Context `{Ctx : ContextSrv}.

(** What one event can do: it never writes the role options; it calls
    [onRemoveUser] only as the confirmation of an open prompt of a listed
    user the viewer may remove, once, and then leaves the state alone; it
    calls [onRoleChange] only from the picker of a listed user whose role the
    viewer may update, once, and then leaves the state alone. *)
Lemma step_effect props w ev :
  roleOptions (state (step props w ev)) = roleOptions (state w)
  /\ builtinRoles (state (step props w ev)) = builtinRoles (state w)
  /\ (removeCalls (step props w ev) = removeCalls w
      \/ exists i u,
           ev = Confirm i /\ Props.users props !! i = Some u
           /\ hasPermissionInMetadata OrgUsersRemove u = true
           /\ removeCalls (step props w ev) = removeCalls w ++ [u])
  /\ (roleChangeCalls (step props w ev) = roleChangeCalls w
      \/ exists i u r,
           ev = PickRole i r /\ Props.users props !! i = Some u
           /\ hasPermissionInMetadata OrgUsersRoleUpdate u = true
           /\ roleChangeCalls (step props w ev) = roleChangeCalls w ++ [(r, u)])
  /\ (is_confirm ev || is_pick ev = true -> state (step props w ev) = state w).
Proof.
  destruct ev as [i|i|i|i r]; unfold step; rewrite UsersTable_lookup;
    destruct (Props.users props !! i) as [u|] eqn:Hu; cbn;
    try (repeat split; solve [auto | discriminate]).
  - destruct (hasPermissionInMetadata OrgUsersRemove u); cbn;
      repeat split; solve [auto | discriminate].
  - destruct (hasPermissionInMetadata OrgUsersRemove u); cbn;
      [destruct (Bool.eqb _ _); cbn|]; repeat split; solve [auto | discriminate].
  - destruct (hasPermissionInMetadata OrgUsersRemove u) eqn:Hperm; cbn;
      [destruct (Bool.eqb _ _); cbn|]; repeat split; auto.
    right. exists i, u. now repeat split.
  - destruct (hasPermissionInMetadata OrgUsersRoleUpdate u) eqn:Hperm; cbn;
      repeat split; auto.
    right. exists i, u, r. now repeat split.
Qed.

Lemma run_events_cons props w ev evs :
  run_events props w (ev :: evs) = run_events props (step props w ev) evs.
Proof. reflexivity. Qed.

(** X14.  Over any session, [onRemoveUser] is called at most once per
    confirmation, in order, and only with users of the list whom the viewer
    may remove: clicks, dismissals and role changes never call it, and a row
    without the remove permission can never be removed. *)
Theorem remove_calls_only_by_confirmation props w evs :
  exists added,
    removeCalls (run_events props w evs) = removeCalls w ++ added
    /\ (length added <= length (List.filter is_confirm evs))%nat
    /\ Forall (fun u => In u (Props.users props)
                        /\ hasPermissionInMetadata OrgUsersRemove u = true) added.
Proof.
  revert w. induction evs as [|ev evs IH]; intros w.
  - exists []. cbn. rewrite app_nil_r. repeat split; [lia | constructor].
  - rewrite run_events_cons.
    destruct (IH (step props w ev)) as [added [Hcalls [Hlen Hall]]].
    destruct (step_effect props w ev) as [_ [_ [Hstep _]]].
    destruct Hstep as [Hsame | [i [u [-> [Hu [Hperm Hcall]]]]]].
    + exists added. rewrite Hcalls, Hsame. split; [reflexivity|].
      split; [|exact Hall]. cbn. destruct (is_confirm ev); cbn; lia.
    + exists (u :: added). rewrite Hcalls, Hcall, <- app_assoc.
      split; [reflexivity|]. split; [cbn; lia|].
      constructor; [|exact Hall]. split; [|exact Hperm].
      apply list_elem_of_In. now apply list_elem_of_lookup_2 with i.
Qed.


(** X16.  No session writes the role options or the built-in roles, and a
    session of confirmations and role picks alone leaves the whole state as
    it was: confirming a removal does not close the prompt. *)
Theorem sessions_keep_the_state props w evs :
  roleOptions (state (run_events props w evs)) = roleOptions (state w)
  /\ builtinRoles (state (run_events props w evs)) = builtinRoles (state w)
  /\ (forallb (fun ev => is_confirm ev || is_pick ev) evs = true ->
      state (run_events props w evs) = state w
      /\ forall i, prompt_open (UsersTable props (state (run_events props w evs))) i =
                   prompt_open (UsersTable props (state w)) i).
Proof.
  revert w. induction evs as [|ev evs IH]; intros w; [now repeat split|].
  rewrite run_events_cons.
  destruct (IH (step props w ev)) as [Hopt [Hroles Hstate]].
  destruct (step_effect props w ev) as [Hopt1 [Hroles1 [_ [_ Hkeep]]]].
  split; [congruence|]. split; [congruence|].
  cbn. intros Hall. apply andb_true_iff in Hall as [Hev Hevs].
  destruct (Hstate Hevs) as [Heq _].
  assert (Hfinal : state (run_events props (step props w ev) evs) = state w)
    by (rewrite Heq; now apply Hkeep).
  split; [exact Hfinal|]. intros i. now rewrite Hfinal.
Qed.

(** X18.  Dismissing an open prompt clears the shared flag: afterwards no
    row with a non-empty login shows its prompt, whichever row's prompt was
    dismissed. *)
Theorem dismiss_closes_every_prompt props w i :
  prompt_open (UsersTable props (state w)) i = true ->
  showRemoveModal (state (step props w (Dismiss i))) = false
  /\ forall j u, Props.users props !! j = Some u -> OrgUser.login u <> "" ->
       prompt_open (UsersTable props (state (step props w (Dismiss i)))) j = false.
Proof.
  intros Hopen.
  assert (Hflag : showRemoveModal (state (step props w (Dismiss i))) = false).
  { unfold prompt_open in Hopen. unfold step. rewrite UsersTable_lookup in *.
    destruct (Props.users props !! i) as [u|]; cbn in *; [|discriminate].
    destruct (hasPermissionInMetadata OrgUsersRemove u); cbn in *; [|discriminate].
    now rewrite Hopen. }
  split; [exact Hflag|]. intros j u Hu Hlogin.
  destruct (hasPermissionInMetadata OrgUsersRemove u) eqn:Hperm.
  - rewrite (prompt_open_eq _ _ _ _ Hu Hperm), Hflag.
    now rewrite (proj2 (Boolean_true _) Hlogin).
  - unfold prompt_open. rewrite UsersTable_lookup, Hu. cbn. now rewrite Hperm.
Qed.

(** X19.  From a state with the flag clear, opening the prompt of a row
    with a non-empty login and dismissing it returns the component and the
    owner's call logs exactly to where they were. *)
Theorem open_then_dismiss_is_a_round_trip props w i u :
  Props.users props !! i = Some u ->
  hasPermissionInMetadata OrgUsersRemove u = true ->
  OrgUser.login u <> "" ->
  showRemoveModal (state w) = false ->
  showRemoveModal (state (step props w (ClickDelete i))) = true
  /\ step props (step props w (ClickDelete i)) (Dismiss i) = w.
Proof.
  intros Hu Hperm Hlogin Hflag.
  assert (Hclick : step props w (ClickDelete i) =
    {| state := {| showRemoveModal := true; roleOptions := roleOptions (state w);
                   builtinRoles := builtinRoles (state w) |};
       removeCalls := removeCalls w; roleChangeCalls := roleChangeCalls w |}).
  { unfold step. rewrite UsersTable_lookup, Hu. cbn. rewrite Hperm. cbn.
    now rewrite (proj2 (Boolean_true _) Hlogin). }
  rewrite Hclick. split; [reflexivity|].
  unfold step. rewrite UsersTable_lookup, Hu. cbn. rewrite Hperm. cbn.
  rewrite (proj2 (Boolean_true _) Hlogin). cbn.
  destruct w as [[flag opts roles] removed changed]. cbn in *. now subst flag.
Qed.

End UsersTableCoverage.

(** * The further properties on the sample deployment *)

Section ApiCoverageExamples.
Import Api Sample.
#[local] Existing Instance packages.
#[local] Existing Instance memstore.

(** Carol is added to organization 1: 200, her identifier in the body, and
    her membership in the store. *)
Lemma add_member_success_witness :
  exists m w',
    addOrgUserHelper hs0 add_carol world0 =
      (Returned {| Response.Status := 200; Response.Payload := BDynMap m;
                   Response.Err := None |}, w')
    /\ m !! "userId" = Some (JInt 3)
    /\ existsb (is_member 1 3) (members (db w')) = true.
Proof.
  destruct (@add_member_success packages MemStore memstore hs0 add_carol world0
              {| GetUserByLoginQuery.LoginOrEmail := "carol";
                 GetUserByLoginQuery.Result := Some carol |}
              store0 carol (AddOrgUserCommand.set_UserId 3 add_carol)
              {| users := users store0;
                 members := members store0 ++
                   [{| m_org := 1; m_user := 3; m_role := "Editor" |}];
                 outage := None |}
              eq_refl eq_refl eq_refl eq_refl) as [m [Hrun [_ [Hid _]]]].
  exists m. eexists. split; [exact Hrun|]. split; [exact Hid | reflexivity].
Defined.

(** The connection breaks between the lookup and the insert. *)
Lemma add_member_store_failure_500_witness :
  Response.Status
    match (@addOrgUserHelper packages _ flakystore hs0 add_carol world_one_call).1 with
    | Returned r => r
    | NilDereference => response_JSON 0 (BDynMap ∅)
    end = 500
  /\ inner (db (@addOrgUserHelper packages _ flakystore hs0 add_carol world_one_call).2)
     = store0.
Proof.
  destruct (@add_member_store_failure_500 packages FlakyStore flakystore hs0 add_carol
              world_one_call
              {| GetUserByLoginQuery.LoginOrEmail := "carol";
                 GetUserByLoginQuery.Result := Some carol |}
              {| inner := store0; budget := 0 |} carol
              (AddOrgUserCommand.set_UserId 3 add_carol)
              (ErrOther "read tcp: connection reset by peer")
              {| inner := store0; budget := 0 |}
              eq_refl eq_refl eq_refl eq_refl eq_refl) as [Hresp Hdb].
  rewrite Hresp, Hdb. split; reflexivity.
Defined.

Lemma unbound_body_400_no_store_call_witness :
  (AddOrgUserToCurrentOrg hs0 garbled_request world0).2 = world0
  /\ (UpdateOrgUser_handler hs0 garbled_request world0).2 = world0
  /\ Response.Status (UpdateOrgUser_handler hs0 garbled_request world0).1 = 400.
Proof.
  destruct (@unbound_body_400_no_store_call packages MemStore memstore
              hs0 garbled_request world0) as [Hadd Hupd].
  destruct (Hadd AddOrgUserCommand.zero (ErrOther "invalid request body") eq_refl)
    as [Hcur _].
  destruct (Hupd UpdateOrgUserCommand.zero (ErrOther "invalid request body") eq_refl)
    as [_ Horg].
  rewrite Hcur, Horg. repeat split.
Defined.

(** Bob's request to update member 2: the call is for organization 1 and
    user 2, from the request context and the route. *)
Lemma mutations_are_scoped_by_the_route_witness :
  calls (UpdateOrgUserForCurrentOrg hs0 editor_request world0).2 =
    [CallUpdateOrgUser
       {| UpdateOrgUserCommand.Role := "Editor"; UpdateOrgUserCommand.OrgId := 1;
          UpdateOrgUserCommand.UserId := 2 |}].
Proof.
  destruct (@mutations_are_scoped_by_the_route packages MemStore memstore
              hs0 editor_request world0) as [Hupd _].
  exact (proj1 (Hupd {| UpdateOrgUserCommand.Role := "Editor";
                        UpdateOrgUserCommand.OrgId := 0;
                        UpdateOrgUserCommand.UserId := 0 |} eq_refl eq_refl)).
Defined.

(** Bob becomes an Editor; removed with orphan cleanup, his account goes
    too. *)
Lemma mutation_success_messages_witness :
  (updateOrgUserHelper hs0
     {| UpdateOrgUserCommand.Role := "Editor"; UpdateOrgUserCommand.OrgId := 1;
        UpdateOrgUserCommand.UserId := 2 |} world0).1 =
    {| Response.Status := 200;
       Response.Payload := BDynMap {[ "message" := JString "Organization user updated" ]};
       Response.Err := None |}
  /\ (removeOrgUserHelper hs0
     {| RemoveOrgUserCommand.UserId := 2; RemoveOrgUserCommand.OrgId := 1;
        RemoveOrgUserCommand.ShouldDeleteOrphanedUser := true;
        RemoveOrgUserCommand.UserWasDeleted := false |} world0).1 =
    {| Response.Status := 200;
       Response.Payload := BDynMap {[ "message" := JString "User deleted" ]};
       Response.Err := None |}.
Proof.
  destruct (@mutation_success_messages packages MemStore memstore hs0 world0)
    as [Hupd Hrem].
  split.
  - rewrite (Hupd {| UpdateOrgUserCommand.Role := "Editor";
                     UpdateOrgUserCommand.OrgId := 1;
                     UpdateOrgUserCommand.UserId := 2 |} _ _ eq_refl eq_refl).
    reflexivity.
  - rewrite (Hrem {| RemoveOrgUserCommand.UserId := 2; RemoveOrgUserCommand.OrgId := 1;
                     RemoveOrgUserCommand.ShouldDeleteOrphanedUser := true;
                     RemoveOrgUserCommand.UserWasDeleted := false |} _ _ eq_refl).
    reflexivity.
Defined.

Lemma read_store_failure_500_witness :
  Response.Status (GetOrgUsersForCurrentOrg hs0 list_request world_down).1 = 500
  /\ Response.Err (GetOrgUsers_handler hs0 list_request world_down).1 =
       Some (ErrOther "dial tcp: connection refused")
  /\ logged (GetOrgUsersForCurrentOrg hs0 list_request world_down).2 = [].
Proof.
  destruct (@read_store_failure_500 packages MemStore memstore
              hs0 list_request world_down) as [Hcur [Horg _]].
  destruct (Hcur _ (ErrOther "dial tcp: connection refused") store_down eq_refl)
    as [Hresp [_ [Hlog _]]].
  destruct (Horg _ (ErrOther "dial tcp: connection refused") store_down eq_refl)
    as [Hresp' _].
  rewrite Hresp, Hresp', Hlog. repeat split.
Defined.

(** Without an access-control service the visible rows come back with
    empty metadata. *)
Lemma list_without_enrichment_witness :
  map OrgUserDTO.AccessControl
    (getOrgUsersHelper hs0 list_request
       {| GetOrgUsersQuery.OrgId := 1; GetOrgUsersQuery.Query := "";
          GetOrgUsersQuery.Limit := 0; GetOrgUsersQuery.Result := [] |}
       viewer world0).1.1 = [∅; ∅].
Proof.
  erewrite (@list_without_enrichment packages MemStore memstore hs0 list_request
              _ viewer world0 _ store0 (or_introl eq_refl) eq_refl).
  reflexivity.
Defined.

(** With the granting service, alice's and bob's rows carry the two
    permissions; svc is hidden and its identifier is not looked up. *)
Lemma list_with_enrichment_witness :
  exists ids : gmap string bool,
    ids !! "1" = Some true /\ ids !! "2" = Some true /\ ids !! "4" = None
    /\ map (fun u => OrgUserDTO.AccessControl u !! "org.users:remove")
         (getOrgUsersHelper hs_ac_granting list_request_ac
            {| GetOrgUsersQuery.OrgId := 1; GetOrgUsersQuery.Query := "";
               GetOrgUsersQuery.Limit := 0; GetOrgUsersQuery.Result := [] |}
            viewer world0).1.1 = [Some true; Some true].
Proof.
  destruct (@list_with_enrichment packages MemStore memstore hs_ac_granting
              list_request_ac
              {| GetOrgUsersQuery.OrgId := 1; GetOrgUsersQuery.Query := "";
                 GetOrgUsersQuery.Limit := 0; GetOrgUsersQuery.Result := [] |}
              viewer world0 _ store0 ac_granting
              ["org.users.role:update"; "org.users:remove"]
              eq_refl eq_refl eq_refl eq_refl ltac:(discriminate) eq_refl)
    as [ids [Hids Hrun]].
  exists ids.
  assert (H1 : ids !! "1" = Some true).
  { apply Hids. split; [reflexivity|].
    exists (to_dto (users store0) {| m_org := 1; m_user := 1; m_role := "Admin" |}).
    repeat split. now left. }
  assert (H2 : ids !! "2" = Some true).
  { apply Hids. split; [reflexivity|].
    exists (to_dto (users store0) {| m_org := 1; m_user := 2; m_role := "Viewer" |}).
    repeat split. right; now left. }
  assert (H4 : ids !! "4" = None).
  { destruct (ids !! "4") as [b|] eqn:Hb; [|reflexivity].
    apply Hids in Hb as [_ [u [Hin [Hvis Hk]]]].
    destruct Hin as [<- | [<- | [<- | []]]]; discriminate. }
  split; [exact H1|]. split; [exact H2|]. split; [exact H4|].
  rewrite Hrun. cbn [fst].
  match goal with |- context [List.filter ?f ?l] =>
    replace (List.filter f l)
      with [to_dto (users store0) {| m_org := 1; m_user := 1; m_role := "Admin" |};
            to_dto (users store0) {| m_org := 1; m_user := 2; m_role := "Viewer" |}]
      by reflexivity end.
  unfold accesscontrol_GetResourcesMetadata, packages, GetResourcesMetadata.
  cbn [map OrgUserDTO.AccessControl OrgUserDTO.set_AccessControl].
  change (fmt_Sprint (OrgUserDTO.UserId
    (to_dto (users store0) {| m_org := 1; m_user := 1; m_role := "Admin" |}))) with "1".
  change (fmt_Sprint (OrgUserDTO.UserId
    (to_dto (users store0) {| m_org := 1; m_user := 2; m_role := "Viewer" |}))) with "2".
  rewrite !lookup_fmap, H1, H2. reflexivity.
Defined.

(** The search of organization 1 by bob: three members counted, two
    shown. *)
Lemma search_success_envelope_witness :
  exists r,
    Response.Payload (SearchOrgUsersWithPaging hs0 list_request world0).1 = BSearch r
    /\ SearchOrgUsersQueryResult.TotalCount r = 3
    /\ length (SearchOrgUsersQueryResult.OrgUsers r) = 2%nat.
Proof.
  destruct (@search_success_envelope packages MemStore memstore hs0 list_request world0
              _ _ store0 eq_refl eq_refl) as [r [Hresp [Hcount [Hrows _]]]].
  exists r. rewrite Hresp, Hcount, Hrows. repeat split.
Defined.

(** A last-admin error reported with context is still a 400. *)
Lemma wrapped_last_admin_is_recognised_witness :
  Response.Status (updateOrgUserHelper hs0 demote_alice world_wrapping).1 = 400
  /\ Response.Status (removeOrgUserHelper hs0 remove_alice world_wrapping).1 = 400.
Proof.
  destruct (@wrapped_last_admin_is_recognised packages MemStore memstore hs0
              world_wrapping "update org user") as [Hupd Hrem].
  split.
  - exact (proj1 (proj1 (Hupd demote_alice demote_alice ErrLastOrgAdmin
                           (db world_wrapping) eq_refl eq_refl) eq_refl)).
  - exact (proj1 (proj1 (Hrem remove_alice remove_alice ErrLastOrgAdmin
                           (db world_wrapping) eq_refl) eq_refl)).
Defined.

End ApiCoverageExamples.

Section UsersTableCoverageExamples.
Import UsersTable.
#[local] Existing Instance permissive.

(** Confirming twice in a row calls the owner twice: the prompt is still
    open after the first confirmation. *)
Lemma sessions_keep_the_state_witness :
  state (run_events two_rows (step two_rows mounted (ClickDelete 0))
           [Confirm 0; Confirm 0]) =
    state (step two_rows mounted (ClickDelete 0))
  /\ removeCalls (run_events two_rows (step two_rows mounted (ClickDelete 0))
                    [Confirm 0; Confirm 0]) = [alice; alice].
Proof.
  destruct (@sessions_keep_the_state permissive two_rows
              (step two_rows mounted (ClickDelete 0)) [Confirm 0; Confirm 0])
    as [_ [_ Hkeep]].
  split; [exact (proj1 (Hkeep eq_refl)) | reflexivity].
Defined.

Lemma dismiss_closes_every_prompt_witness :
  prompt_open (UsersTable two_rows
    (state (step two_rows (step two_rows mounted (ClickDelete 0)) (Dismiss 0)))) 1
  = false.
Proof.
  destruct (@dismiss_closes_every_prompt permissive two_rows
              (@step permissive two_rows mounted (ClickDelete 0)) 0%nat eq_refl)
    as [_ Hall].
  apply (Hall 1%nat bob); [reflexivity | discriminate].
Defined.

Lemma open_then_dismiss_is_a_round_trip_witness :
  step two_rows (step two_rows mounted (ClickDelete 1)) (Dismiss 1) = mounted.
Proof.
  refine (proj2 (@open_then_dismiss_is_a_round_trip permissive two_rows mounted
                   1%nat bob eq_refl eq_refl _ eq_refl)).
  discriminate.
Defined.

End UsersTableCoverageExamples.
